(** * Meeting Memory: the Whisper transcription runner

    A shallow embedding of [web/python/transcribe_with_whisper.py] and the
    properties of its validation pipeline: admissibility, the duration guard,
    the aggregation of per-segment quality metrics, the ordered rejection
    rules and the classification of unexpected failures.

    Conventions of the embedding.
    - A Python [float] is an IEEE binary64 number: Rocq's primitive [float].
      The aggregation function is written once over an interface [Arith] of
      the operations it uses, and instantiated at [binary64] (what the program
      runs) and at [exactQ] (the same operations without rounding).
    - A Python [str] is a [string]; its characters are the code points below
      256.
    - A [dict] whose keys are fixed by the program is a record; a [dict] read
      with [.get] is an association list; a JSON object keeps the order in
      which the program writes its keys.
    - [sys.exit] raises [SystemExit], which [except Exception] does not catch:
      the result of a computation is a value, an exception or an exit. *)

From Stdlib Require Import ZArith NArith QArith Floats List String Ascii Bool Lia.
From Stdlib Require Import DecimalString.
Import ListNotations.

Set Warnings "-inexact-float,-register-all".

Local Open Scope string_scope.
Local Open Scope Z_scope.

(** ** Results of calls that may raise *)

(** What a call gives back: a value, or an exception, kept as the text that
    [str(exc)] returns. *)
Inductive outcome (A : Type) : Type :=
| Ret (a : A)
| Raise (msg : string).

Arguments Ret {A} a.
Arguments Raise {A} msg.

(** ** Python strings *)

Module PyStr.

(** [str.isspace] on one character, for code points below 256. *)
Definition is_space (c : ascii) : bool :=
  let n := N_of_ascii c in
  ((9 <=? n) && (n <=? 13) || (28 <=? n) && (n <=? 32)
   || (n =? 133) || (n =? 160))%N.

Fixpoint lstrip (s : string) : string :=
  match s with
  | EmptyString => EmptyString
  | String c s' => if is_space c then lstrip s' else s
  end.

Fixpoint rstrip (s : string) : string :=
  match s with
  | EmptyString => EmptyString
  | String c s' =>
      match rstrip s' with
      | EmptyString => if is_space c then EmptyString else String c EmptyString
      | r => String c r
      end
  end.

(** [s.strip()] *)
Definition strip (s : string) : string := rstrip (lstrip s).

(** [len(s)] *)
Definition len (s : string) : Z := Z.of_nat (String.length s).

(** [str.lower] on one character, for code points below 256: the ASCII
    capitals and the Latin-1 capitals other than the multiplication sign. *)
Definition lower_char (c : ascii) : ascii :=
  let n := N_of_ascii c in
  if ((65 <=? n) && (n <=? 90)
      || (192 <=? n) && (n <=? 222) && negb (n =? 215))%N
  then ascii_of_N (n + 32)
  else c.

(** [s.lower()] *)
Fixpoint lower (s : string) : string :=
  match s with
  | EmptyString => EmptyString
  | String c s' => String (lower_char c) (lower s')
  end.

(** [s.startswith(p)] *)
Fixpoint startswith (p s : string) : bool :=
  match p, s with
  | EmptyString, _ => true
  | String _ _, EmptyString => false
  | String a p', String b s' => Ascii.eqb a b && startswith p' s'
  end.

(** [sub in s] *)
Fixpoint contains (sub s : string) : bool :=
  startswith sub s
  || match s with
     | EmptyString => false
     | String _ s' => contains sub s'
     end.

(** [s or ""] for a value that is a [str] or [None]. *)
Definition or_empty (s : option string) : string :=
  match s with
  | Some t => t
  | None => EmptyString
  end.

(** Truth value of a [str] or [None]. *)
Definition truthy (s : option string) : bool :=
  match s with
  | Some (String _ _) => true
  | _ => false
  end.

End PyStr.

(** ** Arithmetic of Python floats *)

(** The operations on [float] that the program uses. *)
Class Arith (F : Type) : Type := {
  of_Z : Z -> F;           (* the float nearest to an integer: [float(n)], [n.0] *)
  finite : F -> bool;      (* neither an infinity nor a NaN *)
  fadd : F -> F -> F;      (* [x + y] *)
  fdiv : F -> F -> F;      (* [x / y], [y] non-zero *)
  fleb : F -> F -> bool;   (* [x <= y] *)
}.

(** An integer as a binary floating-point number, before any rounding. *)
Definition Z2SF (z : Z) : spec_float :=
  match z with
  | Z0 => S754_zero false
  | Zpos p => S754_finite false p 0
  | Zneg p => S754_finite true p 0
  end.

(** The binary64 number nearest to an integer, ties to even; an infinity
    when the integer is out of range. *)
Definition float_of_Z (z : Z) : float :=
  SF2Prim (binary_normalize prec emax z 0 false).

(** What CPython runs. *)
#[export] Instance binary64 : Arith float := {
  of_Z := float_of_Z;
  finite := PrimFloat.is_finite;
  fadd := PrimFloat.add;
  fdiv := PrimFloat.div;
  fleb := PrimFloat.leb;
}.

(** The same operations on rationals: no rounding, no overflow, no NaN. *)
#[export] Instance exactQ : Arith Q := {
  of_Z := inject_Z;
  finite := fun _ => true;
  fadd := Qplus;
  fdiv := Qdiv;
  fleb := Qle_bool;
}.

(** [a / b] on two [int]: the quotient rounded once to binary64. *)
Definition int_truediv (a b : Z) : outcome float :=
  if b =? 0 then Raise "division by zero"
  else
    let q := SF2Prim (SFdiv prec emax (Z2SF a) (Z2SF b)) in
    if PrimFloat.is_finite q then Ret q
    else Raise "integer division result too large for a float".

(** ** Segments and quality metrics *)

Section Quality.

Context {F : Type} `{Arith F}.

(** The values a segment field may hold. [PyOpaque] stands for any object
    on which [float()] raises [TypeError] or [ValueError] (a list, a dict, a
    string that is not a number). *)
Inductive pyvalue : Type :=
| PyNone
| PyBool (b : bool)
| PyInt (n : Z)
| PyFloat (x : F)
| PyOpaque.

(** A segment is a [dict[str, Any]]. *)
Definition Segment : Type := list (string * pyvalue).

(** [d.get(key)]: [None] when the key is absent. *)
Fixpoint dict_get (d : Segment) (key : string) : pyvalue :=
  match d with
  | [] => PyNone
  | (k, v) :: d' => if String.eqb k key then v else dict_get d' key
  end.

(** [float(value)] *)
Definition py_float (value : pyvalue) : outcome F :=
  match value with
  | PyNone => Raise "float() argument must be a string or a real number"
  | PyBool b => Ret (of_Z (if b then 1 else 0))
  | PyInt n =>
      if finite (of_Z n) then Ret (of_Z n)
      else Raise "int too large to convert to float"
  | PyFloat x => Ret x
  | PyOpaque => Raise "float() argument must be a string or a real number"
  end.

Definition safe_float (value : pyvalue) (fallback : F) : F :=
  match py_float value with
  | Ret x => x
  | Raise _ => fallback
  end.

(** [sum(xs)]: the additions from the start value [0], left to right, each
    one rounded. (From CPython 3.12 on, [sum] also carries a compensation
    term for the rounding errors; the last bit of a sum may differ.) *)
Definition py_sum (xs : list F) : F := fold_left fadd xs (of_Z 0).

(** The [dict] that [build_quality_metrics] returns. *)
Record Quality : Type := {
  avg_no_speech_prob : F;
  avg_logprob : F;
  avg_compression_ratio : F;
}.

Definition build_quality_metrics (segments : list Segment) : Quality :=
  match segments with
  | [] =>
      {| avg_no_speech_prob := of_Z 1;
         avg_logprob := of_Z (-10);
         avg_compression_ratio := of_Z 10 |}
  | _ :: _ =>
      let total := of_Z (Z.of_nat (List.length segments)) in
      let avg_no_speech :=
        fdiv (py_sum (map (fun s => safe_float (dict_get s "no_speech_prob") (of_Z 0))
                          segments)) total in
      let avg_logprob :=
        fdiv (py_sum (map (fun s => safe_float (dict_get s "avg_logprob") (of_Z (-1)))
                          segments)) total in
      let avg_compression :=
        fdiv (py_sum (map (fun s => safe_float (dict_get s "compression_ratio") (of_Z 1))
                          segments)) total in
      {| avg_no_speech_prob := avg_no_speech;
         avg_logprob := avg_logprob;
         avg_compression_ratio := avg_compression |}
  end.

(** *** The aggregation as the specification words it *)

(** A segment after fallback substitution: its three numbers. *)
Record Signals : Type := {
  no_speech_prob : F;
  logprob : F;
  compression_ratio : F;
}.

(** The number a field holds; none when the field is missing or holds
    something that is not a number. *)
Definition number_of (v : pyvalue) : option F :=
  match v with
  | PyFloat x => Some x
  | PyInt n => if finite (of_Z n) then Some (of_Z n) else None
  | PyBool true => Some (of_Z 1)
  | PyBool false => Some (of_Z 0)
  | PyNone | PyOpaque => None
  end.

Definition with_fallback (v : pyvalue) (fallback : F) : F :=
  match number_of v with
  | Some x => x
  | None => fallback
  end.

Definition substitute (s : Segment) : Signals :=
  {| no_speech_prob := with_fallback (dict_get s "no_speech_prob") (of_Z 0);
     logprob := with_fallback (dict_get s "avg_logprob") (of_Z (-1));
     compression_ratio := with_fallback (dict_get s "compression_ratio") (of_Z 1) |}.

(** The sum of a list, taken in the order of the list. *)
Fixpoint sum_from (acc : F) (xs : list F) : F :=
  match xs with
  | [] => acc
  | x :: xs' => sum_from (fadd acc x) xs'
  end.

(** The arithmetic mean: the sum divided by the number of values. *)
Definition mean (xs : list F) : F :=
  fdiv (sum_from (of_Z 0) xs) (of_Z (Z.of_nat (List.length xs))).

Definition sentinel : Quality :=
  {| avg_no_speech_prob := of_Z 1;
     avg_logprob := of_Z (-10);
     avg_compression_ratio := of_Z 10 |}.

Definition spec_quality_metrics (segments : list Segment) : Quality :=
  let signals := map substitute segments in
  match signals with
  | [] => sentinel
  | _ =>
      {| avg_no_speech_prob := mean (map no_speech_prob signals);
         avg_logprob := mean (map logprob signals);
         avg_compression_ratio := mean (map compression_ratio signals) |}
  end.

(** *** Smallest and largest value of a list *)

Definition smallest (x : F) (xs : list F) : F :=
  fold_left (fun m y => if fleb m y then m else y) xs x.

Definition largest (x : F) (xs : list F) : F :=
  fold_left (fun m y => if fleb y m then m else y) xs x.

(** [m] lies between the smallest and the largest of [xs]. *)
Definition within_hull (xs : list F) (m : F) : bool :=
  match xs with
  | [] => false
  | x :: xs' => fleb (smallest x xs') m && fleb m (largest x xs')
  end.

(** The three metrics of a non-empty sequence lie in the hulls of the
    per-segment values; those of the empty sequence are the sentinel. *)
Definition metrics_in_hull (segments : list Segment) : Prop :=
  let q := build_quality_metrics segments in
  let signals := map substitute segments in
  match segments with
  | [] => q = sentinel
  | _ =>
      within_hull (map no_speech_prob signals) (avg_no_speech_prob q) = true
      /\ within_hull (map logprob signals) (avg_logprob q) = true
      /\ within_hull (map compression_ratio signals) (avg_compression_ratio q) = true
  end.

End Quality.

Arguments pyvalue F : clear implicits.
Arguments Segment F : clear implicits.
Arguments Quality F : clear implicits.
Arguments Signals F : clear implicits.

(** ** The JSON objects written to standard output *)

Inductive json : Type :=
| JBool (b : bool)
| JInt (n : Z)
| JFloat (x : float)
| JStr (s : string)
| JObj (fields : list (string * json)).

(** A payload: the keys in the order the program writes them. *)
Definition Payload : Type := list (string * json).

Fixpoint field (key : string) (p : Payload) : option json :=
  match p with
  | [] => None
  | (k, v) :: p' => if String.eqb k key then Some v else field key p'
  end.

Definition has_key (key : string) (p : Payload) : bool :=
  match field key p with
  | Some _ => true
  | None => false
  end.

Definition quality_json (q : Quality float) : json :=
  JObj [("avg_no_speech_prob", JFloat (avg_no_speech_prob q));
        ("avg_logprob", JFloat (avg_logprob q));
        ("avg_compression_ratio", JFloat (avg_compression_ratio q))].

(** A payload is a Success when its ["ok"] is [true], a Failure when it is
    [false]. *)
Definition is_success (p : Payload) : bool :=
  match field "ok" p with
  | Some (JBool true) => true
  | _ => false
  end.

Definition is_failure (p : Payload) : bool :=
  match field "ok" p with
  | Some (JBool false) => true
  | _ => false
  end.

Definition error_code (p : Payload) : option string :=
  match field "error_code" p with
  | Some (JStr c) => Some c
  | _ => None
  end.

Definition message (p : Payload) : option string :=
  match field "message" p with
  | Some (JStr m) => Some m
  | _ => None
  end.

(** ** The command line and the collaborators *)

(** [ALLOWED_MODELS]: argparse admits no other [--model]. *)
Inductive Model : Type := tiny | base.

Definition model_name (m : Model) : string :=
  match m with
  | tiny => "tiny"
  | base => "base"
  end.

Definition ALLOWED_MODELS : list string := ["tiny"; "base"].

Definition MAX_DURATION_SECONDS : Z := 60 * 60.

(** The parsed arguments. *)
Record Args : Type := {
  arg_input : string;
  arg_model : Model;
  arg_meeting_id : string;
  arg_language : option string;
}.

(** The keyword arguments of [model.transcribe]; ["language"] is present only
    when the caller gave a non-empty one. *)
Record Kwargs : Type := {
  kw_fp16 : bool;
  kw_temperature : Z;
  kw_verbose : bool;
  kw_task : string;
  kw_language : option string;
}.

(** What [model.transcribe] returns: ["text"] and ["segments"], either of
    which may be absent or [None]. *)
Record Transcription : Type := {
  res_text : option string;
  res_segments : option (list (Segment float));
}.

(** Everything outside the program: the file system, the [whisper] library
    and the clock. *)
Record World : Type := {
  abspath : string -> string;
  isfile : string -> bool;
  import_whisper : outcome unit;
  SAMPLE_RATE : Z;
  load_audio : string -> outcome N;          (* the number of samples *)
  load_model : string -> outcome unit;
  transcribe : string -> Kwargs -> outcome Transcription;
  clock : nat -> float;                      (* the n-th reading of [time.time] *)
}.

(** The calls the program makes to its collaborators. *)
Inductive Call : Type :=
| CallIsFile (path : string)
| CallImportWhisper
| CallTime
| CallLoadAudio (path : string)
| CallLoadModel (name : string)
| CallTranscribe (path : string) (kwargs : Kwargs).

(** ** Computations *)

Record State : Type := {
  calls : list Call;       (* calls made so far, oldest first *)
  ticks : nat;             (* readings of the clock so far *)
  stdout : list Payload;   (* objects written so far, oldest first *)
}.

Definition initial : State := {| calls := []; ticks := 0; stdout := [] |}.

(** How a computation ends: with a value, with an [Exception] that carries
    its text, or with [SystemExit] and an exit code. *)
Inductive Res (A : Type) : Type :=
| Done (a : A)
| Throw (msg : string)
| Exit (code : Z).

Arguments Done {A} a.
Arguments Throw {A} msg.
Arguments Exit {A} code.

Definition M (A : Type) : Type := State -> Res A * State.

Definition ret {A} (a : A) : M A := fun st => (Done a, st).

Definition bind {A B} (m : M A) (k : A -> M B) : M B :=
  fun st =>
    match m st with
    | (Done a, st') => k a st'
    | (Throw msg, st') => (Throw msg, st')
    | (Exit code, st') => (Exit code, st')
    end.

Declare Scope py_scope.
Delimit Scope py_scope with py.

Notation "x <- m ;; k" := (bind m (fun x => k))
  (at level 100, m at next level, right associativity) : py_scope.
Notation "m ;;; k" := (bind m (fun _ => k))
  (at level 100, right associativity) : py_scope.

(** [try: body except Exception as exc: handler(str(exc))] *)
Definition try_except {A} (body : M A) (handler : string -> M A) : M A :=
  fun st =>
    match body st with
    | (Throw msg, st') => handler msg st'
    | r => r
    end.

(** [if cond: body] *)
Definition when (cond : bool) (body : M unit) : M unit :=
  if cond then body else ret tt.

(** A call to a collaborator: recorded, then its value or its exception. *)
Definition call {A} (c : Call) (r : outcome A) : M A :=
  fun st =>
    let st' := {| calls := calls st ++ [c]; ticks := ticks st; stdout := stdout st |} in
    match r with
    | Ret a => (Done a, st')
    | Raise msg => (Throw msg, st')
    end.

(** A pure operation that may raise. *)
Definition lift {A} (r : outcome A) : M A :=
  fun st =>
    match r with
    | Ret a => (Done a, st)
    | Raise msg => (Throw msg, st)
    end.

(** [time.time()] *)
Definition time_time (w : World) : M float :=
  fun st =>
    (Done (clock w (ticks st)),
     {| calls := calls st ++ [CallTime]; ticks := S (ticks st); stdout := stdout st |}).

(** [emit(payload, exit_code)]: write the object, then [sys.exit]. *)
Definition emit {A} (payload : Payload) (exit_code : Z) : M A :=
  fun st =>
    (Exit exit_code,
     {| calls := calls st; ticks := ticks st; stdout := stdout st ++ [payload] |}).

(** The default of [emit]'s parameter [exit_code]. *)
Definition default_exit_code : Z := 0.

(** ** The program *)

Local Open Scope py_scope.

(** The two tests of the quality gate, with the literals of [main]. *)
Definition unclear_audio_rule (raw_text : string) (quality : Quality float) : bool :=
  (PyStr.len raw_text <? 8)
  || PrimFloat.leb 0.78 (avg_no_speech_prob quality).

Definition background_noise_rule (quality : Quality float) : bool :=
  PrimFloat.ltb 2.4 (avg_compression_ratio quality)
  && PrimFloat.ltb (avg_logprob quality) (-0.9)
  && PrimFloat.ltb 0.45 (avg_no_speech_prob quality).

(** The test of the [except] clause on the lowered text. *)
Definition mentions_missing_tool (lowered : string) : bool :=
  PyStr.contains "ffmpeg" lowered
  || PyStr.contains "winerror 2" lowered
  || PyStr.contains "system cannot find the file specified" lowered.

(** The [except Exception as exc] clause of the transcription block. *)
Definition on_exception (exc : string) : M unit :=
  let message := exc in
  let lowered := PyStr.lower message in
  when (mentions_missing_tool lowered)
    (emit [("ok", JBool false);
           ("error_code", JStr "dependency_missing");
           ("message", JStr "Whisper requires ffmpeg installed on the server.");
           ("details", JStr message)]
          default_exit_code) ;;;
  emit [("ok", JBool false);
        ("error_code", JStr "transcription_failed");
        ("message", JStr "Transcription failed unexpectedly.");
        ("details", JStr message)]
       default_exit_code.

Definition main (w : World) (args : Args) : M unit :=
  let input_path := abspath w (arg_input args) in
  found <- call (CallIsFile input_path) (Ret (isfile w input_path)) ;;
  when (negb found)
    (emit [("ok", JBool false);
           ("error_code", JStr "missing_file");
           ("message", JStr "Audio file not found.")]
          default_exit_code) ;;;
  try_except
    (call CallImportWhisper (import_whisper w))
    (fun exc =>
       emit [("ok", JBool false);
             ("error_code", JStr "dependency_missing");
             ("message",
              JStr ("Whisper dependencies are not installed. Install python requirements "
                    ++ "and ffmpeg first."));
             ("details", JStr exc)]
            default_exit_code) ;;;
  started <- time_time w ;;
  try_except
    (audio_len <- call (CallLoadAudio input_path) (load_audio w input_path) ;;
     duration_seconds <- lift (int_truediv (Z.of_N audio_len) (SAMPLE_RATE w)) ;;
     when (PrimFloat.ltb (float_of_Z MAX_DURATION_SECONDS) duration_seconds)
       (emit [("ok", JBool false);
              ("error_code", JStr "too_long");
              ("message", JStr "Please split into 1 hour parts");
              ("duration_seconds", JFloat duration_seconds)]
             default_exit_code) ;;;
     call (CallLoadModel (model_name (arg_model args)))
          (load_model w (model_name (arg_model args))) ;;;
     let transcribe_kwargs :=
       {| kw_fp16 := false;
          kw_temperature := 0;
          kw_verbose := false;
          kw_task := "transcribe";
          kw_language :=
            if PyStr.truthy (arg_language args) then arg_language args else None |} in
     result <- call (CallTranscribe input_path transcribe_kwargs)
                    (transcribe w input_path transcribe_kwargs) ;;
     let raw_text := PyStr.strip (PyStr.or_empty (res_text result)) in
     let segments :=
       match res_segments result with
       | Some (s :: l) => s :: l
       | _ => []
       end in
     let quality := build_quality_metrics segments in
     when (unclear_audio_rule raw_text quality)
       (emit [("ok", JBool false);
              ("error_code", JStr "unclear_audio");
              ("message", JStr "Couldn't hear clearly");
              ("quality", quality_json quality)]
             default_exit_code) ;;;
     when (background_noise_rule quality)
       (emit [("ok", JBool false);
              ("error_code", JStr "background_noise");
              ("message", JStr "Try quieter place");
              ("quality", quality_json quality)]
             default_exit_code) ;;;
     finished <- time_time w ;;
     let processing_seconds := PrimFloat.sub finished started in
     emit [("ok", JBool true);
           ("meeting_id", JStr (arg_meeting_id args));
           ("model", JStr (model_name (arg_model args)));
           ("duration_seconds", JFloat duration_seconds);
           ("processing_seconds", JFloat processing_seconds);
           ("segment_count", JInt (Z.of_nat (List.length segments)));
           ("transcript_text", JStr raw_text);
           ("quality", quality_json quality)]
          default_exit_code)
    on_exception.

(** One run of the program: how it ended and what it left behind. *)
Definition run (w : World) (args : Args) : Res unit * State :=
  main w args initial.

(** The object the run wrote, when it wrote exactly one. *)
Definition emitted (w : World) (args : Args) : option Payload :=
  match stdout (snd (run w args)) with
  | [p] => Some p
  | _ => None
  end.

(** The exit code of the run, when it ended with [sys.exit]. *)
Definition exit_code (w : World) (args : Args) : option Z :=
  match fst (run w args) with
  | Exit code => Some code
  | _ => None
  end.

(** ** Vocabulary of the properties *)

(** The run wrote exactly one object, a Failure with this error code. *)
Definition emits_failure (w : World) (args : Args) (code : string) : Prop :=
  exists p, emitted w args = Some p
            /\ is_failure p = true
            /\ error_code p = Some code.

(** The run wrote exactly one object, a Success. *)
Definition emits_success (w : World) (args : Args) : Prop :=
  exists p, emitted w args = Some p /\ is_success p = true.

(** The keyword arguments [main] passes to [model.transcribe]. *)
Definition kwargs_of (args : Args) : Kwargs :=
  {| kw_fp16 := false;
     kw_temperature := 0;
     kw_verbose := false;
     kw_task := "transcribe";
     kw_language :=
       if PyStr.truthy (arg_language args) then arg_language args else None |}.

(** The audio was loaded: the file is there, [whisper] imports, and the
    loader returns [audio_len] samples. *)
Definition audio_loaded (w : World) (args : Args) (audio_len : N) : Prop :=
  let input_path := abspath w (arg_input args) in
  isfile w input_path = true
  /\ import_whisper w = Ret tt
  /\ load_audio w input_path = Ret audio_len.

(** The model was run and returned [result] for an audio of [duration]
    seconds. *)
Definition transcribed (w : World) (args : Args) (duration : float)
    (result : Transcription) : Prop :=
  exists audio_len,
    audio_loaded w args audio_len
    /\ int_truediv (Z.of_N audio_len) (SAMPLE_RATE w) = Ret duration
    /\ PrimFloat.ltb (float_of_Z MAX_DURATION_SECONDS) duration = false
    /\ load_model w (model_name (arg_model args)) = Ret tt
    /\ transcribe w (abspath w (arg_input args)) (kwargs_of args) = Ret result.

(** The text and the segments that [main] reads off the result. *)
Definition text_of (result : Transcription) : string :=
  PyStr.strip (PyStr.or_empty (res_text result)).

Definition segments_of (result : Transcription) : list (Segment float) :=
  match res_segments result with
  | Some (s :: l) => s :: l
  | _ => []
  end.

(** An exception with text [msg] was raised inside the transcription block:
    by the loader, by the division, by the model loader or by the model. *)
Definition failed_in_transcription (w : World) (args : Args) (msg : string) : Prop :=
  let input_path := abspath w (arg_input args) in
  isfile w input_path = true
  /\ import_whisper w = Ret tt
  /\ (load_audio w input_path = Raise msg
      \/ exists audio_len,
           load_audio w input_path = Ret audio_len
           /\ (int_truediv (Z.of_N audio_len) (SAMPLE_RATE w) = Raise msg
               \/ exists duration,
                    int_truediv (Z.of_N audio_len) (SAMPLE_RATE w) = Ret duration
                    /\ PrimFloat.ltb (float_of_Z MAX_DURATION_SECONDS) duration = false
                    /\ (load_model w (model_name (arg_model args)) = Raise msg
                        \/ (load_model w (model_name (arg_model args)) = Ret tt
                            /\ transcribe w input_path (kwargs_of args) = Raise msg)))).

(** [needle] occurs in [text] when capitals and small letters are not told
    apart. *)
Definition occurs_ignoring_case (needle text : string) : Prop :=
  exists before middle after,
    text = before ++ middle ++ after
    /\ PyStr.lower middle = PyStr.lower needle.

(** The model was not invoked: neither loaded nor run. *)
Definition invokes_model (c : Call) : bool :=
  match c with
  | CallLoadModel _ | CallTranscribe _ _ => true
  | _ => false
  end.

(** The optional fields of a Failure: quality, duration_seconds, details. *)
Definition optional_fields (p : Payload) : bool * bool * bool :=
  (has_key "quality" p, has_key "duration_seconds" p, has_key "details" p).

(** The fixed messages of the program, with the error code each goes with. *)
Definition failure_messages : list (string * string) :=
  [("missing_file", "Audio file not found.");
   ("dependency_missing",
    "Whisper dependencies are not installed. Install python requirements and ffmpeg first.");
   ("too_long", "Please split into 1 hour parts");
   ("unclear_audio", "Couldn't hear clearly");
   ("background_noise", "Try quieter place");
   ("dependency_missing", "Whisper requires ffmpeg installed on the server.");
   ("transcription_failed", "Transcription failed unexpectedly.")].

(** The exit code tells a Success from a Failure: [0] for the one, another
    code for the other. *)
Definition exit_code_tells_outcome (w : World) (args : Args) : Prop :=
  forall p,
    emitted w args = Some p ->
    (is_success p = true -> exit_code w args = Some 0)
    /\ (is_failure p = true ->
        exists code, exit_code w args = Some code /\ code <> 0).

(** The message of a Failure is a function of its error code alone. *)
Definition message_determined_by_code : Prop :=
  exists message_of : string -> string,
    forall w args p code,
      emitted w args = Some p ->
      is_failure p = true ->
      error_code p = Some code ->
      message p = Some (message_of code).

(** ** Sample runs *)

Definition sample_args : Args :=
  {| arg_input := "/srv/uploads/standup.wav";
     arg_model := base;
     arg_meeting_id := "meeting-42";
     arg_language := Some "en" |}.

(** A world in which the file is there and [whisper] imports; the loader,
    the model loader and the model answer as given. *)
Definition world_with (audio : outcome N) (model : outcome unit)
    (result : outcome Transcription) : World :=
  {| abspath := fun path => path;
     isfile := fun _ => true;
     import_whisper := Ret tt;
     SAMPLE_RATE := 16000;
     load_audio := fun _ => audio;
     load_model := fun _ => model;
     transcribe := fun _ _ => result;
     clock := fun n => match n with O => 100.0%float | _ => 103.5%float end |}.

Definition world_without_file : World :=
  {| abspath := fun path => path;
     isfile := fun _ => false;
     import_whisper := Ret tt;
     SAMPLE_RATE := 16000;
     load_audio := fun _ => Ret 160000%N;
     load_model := fun _ => Ret tt;
     transcribe := fun _ _ => Raise "unreachable";
     clock := fun _ => 100.0%float |}.

Definition world_without_whisper : World :=
  {| abspath := fun path => path;
     isfile := fun _ => true;
     import_whisper := Raise "No module named 'whisper'";
     SAMPLE_RATE := 16000;
     load_audio := fun _ => Ret 160000%N;
     load_model := fun _ => Ret tt;
     transcribe := fun _ _ => Raise "unreachable";
     clock := fun _ => 100.0%float |}.

Definition segment_of (no_speech logprob compression : float) : Segment float :=
  [("no_speech_prob", PyFloat no_speech);
   ("avg_logprob", PyFloat logprob);
   ("compression_ratio", PyFloat compression)].

(** Ten seconds of clear speech. *)
Definition clear_speech : Transcription :=
  {| res_text := Some " Let us start with the release plan. ";
     res_segments := Some [segment_of 0.1 (-0.2) 1.5] |}.

(** Garbled decoding over noise. *)
Definition noisy_speech : Transcription :=
  {| res_text := Some "the the the the the the";
     res_segments := Some [segment_of 0.5 (-1.0) 3.0] |}.

(** A text and no segment. *)
Definition no_segments : Transcription :=
  {| res_text := Some "A sentence that no segment backs.";
     res_segments := Some [] |}.

(** Two segments with a compression ratio near the largest binary64
    number. *)
Definition two_huge : list (Segment float) :=
  [[("compression_ratio", PyFloat 1e308%float)];
   [("compression_ratio", PyFloat 1e308%float)]].

(** Three segments that report the same no-speech probability. *)
Definition three_alike : list (Segment float) :=
  [[("no_speech_prob", PyFloat 0.1%float)];
   [("no_speech_prob", PyFloat 0.1%float)];
   [("no_speech_prob", PyFloat 0.1%float)]].


(** ** The text written to standard output *)

Module Json.

(** One hexadecimal digit, in small letters. *)
Definition hex_digit (n : N) : ascii :=
  if (n <? 10)%N then ascii_of_N (48 + n) else ascii_of_N (87 + n).

(** The double quote and the backslash. *)
Definition dquote : ascii := "034"%char.
Definition backslash : ascii := "092"%char.

(** The escape of one character under [ensure_ascii=True]: the seven short
    escapes, [\u00xx] for every other character outside [' '..'~'], and the
    character itself otherwise. *)
Definition escape_char (c : ascii) : string :=
  let n := N_of_ascii c in
  if (n =? 34)%N then String backslash (String dquote EmptyString)
  else if (n =? 92)%N then String backslash (String backslash EmptyString)
  else if (n =? 10)%N then String backslash "n"
  else if (n =? 13)%N then String backslash "r"
  else if (n =? 9)%N then String backslash "t"
  else if (n =? 8)%N then String backslash "b"
  else if (n =? 12)%N then String backslash "f"
  else if ((n <? 32) || (126 <? n))%N then
    String backslash
      (String "u" (String "0" (String "0"
         (String (hex_digit (n / 16)) (String (hex_digit (n mod 16)) EmptyString)))))
  else String c EmptyString.

Fixpoint escape (s : string) : string :=
  match s with
  | EmptyString => EmptyString
  | String c s' => escape_char c ++ escape s'
  end.

(** A [str] as a JSON string. *)
Definition encode_string (s : string) : string :=
  String dquote (escape s ++ String dquote EmptyString).

(** An [int] in decimal. *)
Definition encode_int (n : Z) : string := NilZero.string_of_int (Z.to_int n).

Section Dumps.

(** [float.__repr__] on a finite number: the shortest decimal that reads back
    as the same float. *)
Variable float_repr : float -> string.

Definition encode_float (x : float) : string :=
  if PrimFloat.is_nan x then "NaN"
  else if PrimFloat.eqb x infinity then "Infinity"
  else if PrimFloat.eqb x neg_infinity then "-Infinity"
  else float_repr x.

(** [json.dumps(value, ensure_ascii=True)], with the default separators. *)
Fixpoint dumps (value : json) : string :=
  match value with
  | JBool true => "true"
  | JBool false => "false"
  | JInt n => encode_int n
  | JFloat x => encode_float x
  | JStr s => encode_string s
  | JObj fields =>
      let fix items (l : list (string * json)) : string :=
        match l with
        | [] => EmptyString
        | [(k, v)] => encode_string k ++ ": " ++ dumps v
        | (k, v) :: l' => encode_string k ++ ": " ++ dumps v ++ ", " ++ items l'
        end in
      "{" ++ items fields ++ "}"
  end.

(** What [emit] writes for a payload: the object and a line feed. *)
Definition line_of (payload : Payload) : string :=
  dumps (JObj payload) ++ String "010"%char EmptyString.

End Dumps.

(** A character in [' '..'~']. *)
Definition printable (c : ascii) : bool :=
  let n := N_of_ascii c in ((32 <=? n) && (n <=? 126))%N.

Fixpoint all_printable (s : string) : bool :=
  match s with
  | EmptyString => true
  | String c s' => printable c && all_printable s'
  end.

(** *** Reading a line back *)

(** The members of an object, as [dumps] writes them between the braces. *)
Fixpoint members (float_repr : float -> string) (l : list (string * json)) : string :=
  match l with
  | [] => EmptyString
  | (k, v) :: l' =>
      encode_string k ++ ": " ++ dumps float_repr v
      ++ match l' with
         | [] => EmptyString
         | _ :: _ => ", " ++ members float_repr l'
         end
  end.

(** A value that is a string or a boolean; a payload of such values. *)
Definition flat_value (v : json) : bool :=
  match v with
  | JBool _ | JStr _ => true
  | _ => false
  end.

Definition flat (p : Payload) : bool := forallb (fun kv => flat_value (snd kv)) p.

(** The rest of [s] after the prefix [p], when [s] starts with it. *)
Fixpoint after (p s : string) : option string :=
  match p, s with
  | EmptyString, _ => Some s
  | String _ _, EmptyString => None
  | String a p', String b s' => if Ascii.eqb a b then after p' s' else None
  end.

(** The value of a hexadecimal digit. *)
Definition hex_value (c : ascii) : option N :=
  let n := N_of_ascii c in
  if ((48 <=? n) && (n <=? 57))%N then Some (n - 48)%N
  else if ((97 <=? n) && (n <=? 102))%N then Some (n - 87)%N
  else if ((65 <=? n) && (n <=? 70))%N then Some (n - 55)%N
  else None.

(** The character that the two-character escape [\e] stands for. *)
Definition short_escape (e : ascii) : option ascii :=
  let n := N_of_ascii e in
  if (n =? 34)%N then Some dquote
  else if (n =? 92)%N then Some backslash
  else if (n =? 47)%N then Some "/"%char
  else if (n =? 98)%N then Some "008"%char
  else if (n =? 102)%N then Some "012"%char
  else if (n =? 110)%N then Some "010"%char
  else if (n =? 114)%N then Some "013"%char
  else if (n =? 116)%N then Some "009"%char
  else None.

(** A JSON string read from just after its opening quote: the text it stands
    for and what follows the closing quote. Control characters must come
    escaped; [\uxxxx] is read for code points below 256. *)
Fixpoint read_string (s : string) : option (string * string) :=
  match s with
  | EmptyString => None
  | String c s' =>
      if Ascii.eqb c dquote then Some (EmptyString, s')
      else if Ascii.eqb c backslash then
        match s' with
        | EmptyString => None
        | String e s'' =>
            if Ascii.eqb e "u" then
              match s'' with
              | String h1 (String h2 (String h3 (String h4 s3))) =>
                  match hex_value h1, hex_value h2, hex_value h3, hex_value h4 with
                  | Some 0%N, Some 0%N, Some a, Some b =>
                      match read_string s3 with
                      | Some (t, rest) => Some (String (ascii_of_N (16 * a + b)) t, rest)
                      | None => None
                      end
                  | _, _, _, _ => None
                  end
              | _ => None
              end
            else
              match short_escape e with
              | Some ch =>
                  match read_string s'' with
                  | Some (t, rest) => Some (String ch t, rest)
                  | None => None
                  end
              | None => None
              end
        end
      else if (32 <=? N_of_ascii c)%N then
        match read_string s' with
        | Some (t, rest) => Some (String c t, rest)
        | None => None
        end
      else None
  end.

(** A value that is a string, [true] or [false], and what follows it. *)
Definition read_value (s : string) : option (json * string) :=
  match after (String dquote EmptyString) s with
  | Some s' =>
      match read_string s' with
      | Some (t, rest) => Some (JStr t, rest)
      | None => None
      end
  | None =>
      match after "true" s with
      | Some rest => Some (JBool true, rest)
      | None =>
          match after "false" s with
          | Some rest => Some (JBool false, rest)
          | None => None
          end
      end
  end.

(** The members of an object up to its closing brace, and what follows;
    [fuel] bounds their number. *)
Fixpoint read_members (fuel : nat) (s : string) : option (Payload * string) :=
  match fuel with
  | O => None
  | S fuel' =>
      match after (String dquote EmptyString) s with
      | None => None
      | Some s1 =>
          match read_string s1 with
          | None => None
          | Some (k, s2) =>
              match after ": " s2 with
              | None => None
              | Some s3 =>
                  match read_value s3 with
                  | None => None
                  | Some (v, s4) =>
                      match after ", " s4 with
                      | Some s5 =>
                          match read_members fuel' s5 with
                          | Some (l, rest) => Some ((k, v) :: l, rest)
                          | None => None
                          end
                      | None =>
                          match after "}" s4 with
                          | Some rest => Some ([(k, v)], rest)
                          | None => None
                          end
                      end
                  end
              end
          end
      end
  end.

(** A reader for the objects whose values are strings and booleans, written
    with the separators of [json.dumps]: it accepts part of what
    [json.loads] accepts, and reads it as [json.loads] does. *)
Definition read_object (s : string) : option Payload :=
  match after "{" s with
  | None => None
  | Some s1 =>
      match after "}" s1 with
      | Some EmptyString => Some []
      | Some (String _ _) => None
      | None =>
          match read_members (String.length s1) s1 with
          | Some (l, EmptyString) => Some l
          | _ => None
          end
      end
  end.

End Json.

(** ** Vocabulary of the further properties *)

(** The calls of a run that goes all the way to a Success, in order. *)
Definition pipeline (w : World) (args : Args) : list Call :=
  let input_path := abspath w (arg_input args) in
  [CallIsFile input_path;
   CallImportWhisper;
   CallTime;
   CallLoadAudio input_path;
   CallLoadModel (model_name (arg_model args));
   CallTranscribe input_path (kwargs_of args);
   CallTime].

(** A text made of white space only. *)
Fixpoint blank (s : string) : bool :=
  match s with
  | EmptyString => true
  | String c s' => PyStr.is_space c && blank s'
  end.

(** Two segments that hold the same values under the three keys the
    aggregation reads. *)
Definition same_signals {F : Type} (s t : Segment F) : Prop :=
  dict_get s "no_speech_prob" = dict_get t "no_speech_prob"
  /\ dict_get s "avg_logprob" = dict_get t "avg_logprob"
  /\ dict_get s "compression_ratio" = dict_get t "compression_ratio".

(** A segment as [whisper] returns it, with its position and text beside
    the three signals. *)
Definition full_segment (no_speech logprob compression : float) : Segment float :=
  [("id", PyInt 0);
   ("seek", PyInt 0);
   ("start", PyFloat 0.0%float);
   ("end", PyFloat 4.5%float);
   ("text", PyOpaque);
   ("tokens", PyOpaque);
   ("temperature", PyFloat 0.0%float);
   ("avg_logprob", PyFloat logprob);
   ("compression_ratio", PyFloat compression);
   ("no_speech_prob", PyFloat no_speech)].

(** A text over a segment whose no-speech probability is not a number. *)
Definition nan_speech : Transcription :=
  {| res_text := Some "Words the model made up.";
     res_segments := Some [segment_of nan (-0.2) 1.5] |}.

(** A failure text with a quote, a backslash, a line feed and a letter
    outside ASCII in it. *)
Definition awkward_failure_text : string :=
  "[WinError 2] cannot open "
  ++ String Json.dquote ("C:" ++ String Json.backslash ("caf" ++ String "233"%char ".wav"))
  ++ String Json.dquote (String "010"%char "gave up").

(** White space over a segment of confident speech. *)
Definition blank_speech : Transcription :=
  {| res_text := Some "   ";
     res_segments := Some [segment_of 0.01 (-0.1) 1.2] |}.

(** * Properties *)

(** ** Substrings and letter case *)

Lemma startswith_app (p t : string) : PyStr.startswith p (p ++ t) = true.
Proof.
  induction p as [|c p IH]; simpl; [reflexivity|].
  now rewrite Ascii.eqb_refl, IH.
Qed.

Lemma startswith_inv (p s : string) :
  PyStr.startswith p s = true -> exists t, s = p ++ t.
Proof.
  revert s; induction p as [|c p IH]; intros s Hs; simpl in *.
  - now exists s.
  - destruct s as [|d s]; [discriminate|].
    apply andb_true_iff in Hs as [Hc Hp].
    apply Ascii.eqb_eq in Hc; subst d.
    destruct (IH _ Hp) as [t ->]. now exists t.
Qed.

Lemma contains_startswith (sub s : string) :
  PyStr.startswith sub s = true -> PyStr.contains sub s = true.
Proof. intros Hp. destruct s; simpl; now rewrite Hp. Qed.

Lemma contains_iff (sub s : string) :
  PyStr.contains sub s = true <-> exists before after, s = before ++ sub ++ after.
Proof.
  split.
  - induction s as [|c s IH]; simpl; rewrite orb_true_iff; intros [Hp|Hr].
    + apply startswith_inv in Hp as [t Ht]. now exists "", t.
    + discriminate.
    + apply startswith_inv in Hp as [t Ht]. now exists "", t.
    + destruct (IH Hr) as (b & a & ->). now exists (String c b), a.
  - intros (b & a & ->).
    induction b as [|c b IH]; simpl.
    + apply contains_startswith, startswith_app.
    + rewrite IH. apply orb_true_r.
Qed.

Lemma lower_app (a b : string) :
  PyStr.lower (a ++ b) = PyStr.lower a ++ PyStr.lower b.
Proof. induction a as [|c a IH]; simpl; [reflexivity | now rewrite IH]. Qed.

Lemma lower_split (s a b : string) :
  PyStr.lower s = a ++ b ->
  exists a' b', s = a' ++ b' /\ PyStr.lower a' = a /\ PyStr.lower b' = b.
Proof.
  revert s; induction a as [|c a IH]; intros s Hs; simpl in *.
  - now exists "", s.
  - destruct s as [|d s]; [discriminate|]. simpl in Hs.
    injection Hs as Hc Hr.
    destruct (IH _ Hr) as (a' & b' & -> & Ha & Hb).
    exists (String d a'), b'. simpl. now rewrite Hc, Ha, Hb.
Qed.

Lemma contains_lower_iff (needle text : string) :
  PyStr.contains (PyStr.lower needle) (PyStr.lower text) = true
  <-> occurs_ignoring_case needle text.
Proof.
  rewrite contains_iff. unfold occurs_ignoring_case. split.
  - intros (pre & post & Hs).
    apply lower_split in Hs as (a & rest & -> & Ha & Hrest).
    apply lower_split in Hrest as (m & b & -> & Hm & Hb).
    now exists a, m, b.
  - intros (a & m & b & -> & Hm).
    exists (PyStr.lower a), (PyStr.lower b).
    now rewrite !lower_app, Hm.
Qed.

Lemma mentions_missing_tool_iff (msg : string) :
  mentions_missing_tool (PyStr.lower msg) = true
  <-> occurs_ignoring_case "ffmpeg" msg
      \/ occurs_ignoring_case "winerror 2" msg
      \/ occurs_ignoring_case "system cannot find the file specified" msg.
Proof.
  unfold mentions_missing_tool.
  rewrite !orb_true_iff, <- !contains_lower_iff.
  change (PyStr.lower "ffmpeg") with "ffmpeg".
  change (PyStr.lower "winerror 2") with "winerror 2".
  change (PyStr.lower "system cannot find the file specified")
    with "system cannot find the file specified".
  tauto.
Qed.


(** ** The aggregation *)

Section AggregationFacts.

Context {F : Type} `{Arith F}.

Lemma safe_float_with_fallback (v : pyvalue F) (fallback : F) :
  safe_float v fallback = with_fallback v fallback.
Proof.
  unfold safe_float, with_fallback, py_float, number_of.
  destruct v as [|[|]|n|x|]; try reflexivity.
  now destruct (finite (of_Z n)).
Qed.

Lemma py_sum_sum_from (xs : list F) : py_sum xs = sum_from (of_Z 0) xs.
Proof.
  unfold py_sum. generalize (of_Z 0).
  induction xs as [|x xs IH]; intros acc; simpl; [reflexivity | apply IH].
Qed.

Lemma sum_of_field (key : string) (fallback : F) (g : Signals F -> F)
    (segments : list (Segment F)) :
  (forall s, g (substitute s) = with_fallback (dict_get s key) fallback) ->
  py_sum (map (fun s => safe_float (dict_get s key) fallback) segments)
  = sum_from (of_Z 0) (map g (map substitute segments)).
Proof.
  intros Hg. rewrite py_sum_sum_from, map_map. f_equal.
  apply map_ext. intros s. now rewrite Hg, safe_float_with_fallback.
Qed.

Lemma build_quality_metrics_spec (segments : list (Segment F)) :
  build_quality_metrics segments = spec_quality_metrics segments.
Proof.
  destruct segments as [|s l]; [reflexivity|].
  unfold build_quality_metrics, spec_quality_metrics, mean.
  set (segs := s :: l).
  rewrite !length_map.
  rewrite (sum_of_field "no_speech_prob" _ no_speech_prob) by reflexivity.
  rewrite (sum_of_field "avg_logprob" _ logprob) by reflexivity.
  rewrite (sum_of_field "compression_ratio" _ compression_ratio) by reflexivity.
  reflexivity.
Qed.

End AggregationFacts.

(** ** Means of rationals *)

Section ExactFacts.

Local Open Scope Q_scope.

Lemma Qle_bool_false (x y : Q) : Qle_bool x y = false -> y <= x.
Proof.
  intros Hxy. apply Qlt_le_weak, Qnot_le_lt. intros Hle.
  apply Qle_bool_iff in Hle. congruence.
Qed.

Lemma smallest_le (xs : list Q) (m : Q) :
  smallest m xs <= m /\ forall y, In y xs -> smallest m xs <= y.
Proof.
  unfold smallest. revert m.
  induction xs as [|x xs IH]; intros m; simpl.
  - split; [apply Qle_refl | tauto].
  - destruct (Qle_bool m x) eqn:Hmx.
    + apply Qle_bool_iff in Hmx. destruct (IH m) as [Hm Hxs].
      split; [exact Hm|]. intros y [<-|Hy]; [now apply Qle_trans with m | auto].
    + apply Qle_bool_false in Hmx. destruct (IH x) as [Hm Hxs].
      split; [now apply Qle_trans with x|]. intros y [<-|Hy]; auto.
Qed.

Lemma largest_ge (xs : list Q) (m : Q) :
  m <= largest m xs /\ forall y, In y xs -> y <= largest m xs.
Proof.
  unfold largest. revert m.
  induction xs as [|x xs IH]; intros m; simpl.
  - split; [apply Qle_refl | tauto].
  - destruct (Qle_bool x m) eqn:Hmx.
    + apply Qle_bool_iff in Hmx. destruct (IH m) as [Hm Hxs].
      split; [exact Hm|]. intros y [<-|Hy]; [now apply Qle_trans with m | auto].
    + apply Qle_bool_false in Hmx. destruct (IH x) as [Hm Hxs].
      split; [now apply Qle_trans with x|]. intros y [<-|Hy]; auto.
Qed.

Lemma count_succ (n : nat) : inject_Z (Z.of_nat (S n)) == inject_Z (Z.of_nat n) + 1.
Proof. rewrite Nat2Z.inj_succ. unfold Z.succ. rewrite inject_Z_plus. reflexivity. Qed.

Lemma sum_from_lower (lo : Q) (xs : list Q) (acc : Q) :
  (forall y, In y xs -> lo <= y) ->
  acc + inject_Z (Z.of_nat (List.length xs)) * lo <= sum_from acc xs.
Proof.
  revert acc. induction xs as [|x xs IH]; intros acc Hlo.
  - simpl. change (inject_Z 0) with 0. rewrite Qmult_0_l, Qplus_0_r. apply Qle_refl.
  - change (sum_from acc (x :: xs)) with (sum_from (fadd acc x) xs).
    change (fadd acc x) with (acc + x).
    eapply Qle_trans; [|apply IH; intros y Hy; apply Hlo; now right].
    change (List.length (x :: xs)) with (S (List.length xs)).
    rewrite count_succ.
    assert (Hx : lo <= x) by (apply Hlo; now left).
    set (n := inject_Z (Z.of_nat (List.length xs))).
    setoid_replace (acc + (n + 1) * lo) with (acc + lo + n * lo) by ring.
    apply Qplus_le_compat; [|apply Qle_refl].
    apply Qplus_le_compat; [apply Qle_refl | exact Hx].
Qed.

Lemma sum_from_upper (hi : Q) (xs : list Q) (acc : Q) :
  (forall y, In y xs -> y <= hi) ->
  sum_from acc xs <= acc + inject_Z (Z.of_nat (List.length xs)) * hi.
Proof.
  revert acc. induction xs as [|x xs IH]; intros acc Hhi.
  - simpl. change (inject_Z 0) with 0. rewrite Qmult_0_l, Qplus_0_r. apply Qle_refl.
  - change (sum_from acc (x :: xs)) with (sum_from (fadd acc x) xs).
    change (fadd acc x) with (acc + x).
    eapply Qle_trans; [apply IH; intros y Hy; apply Hhi; now right|].
    change (List.length (x :: xs)) with (S (List.length xs)).
    rewrite count_succ.
    assert (Hx : x <= hi) by (apply Hhi; now left).
    set (n := inject_Z (Z.of_nat (List.length xs))).
    setoid_replace (acc + (n + 1) * hi) with (acc + hi + n * hi) by ring.
    apply Qplus_le_compat; [|apply Qle_refl].
    apply Qplus_le_compat; [apply Qle_refl | exact Hx].
Qed.

Lemma mean_within_hull (xs : list Q) :
  xs <> [] -> within_hull xs (mean xs) = true.
Proof.
  destruct xs as [|x xs]; [congruence|]. intros _.
  unfold within_hull. apply andb_true_iff.
  change (@fleb Q exactQ) with Qle_bool. rewrite !Qle_bool_iff.
  unfold mean. change (@fdiv Q exactQ) with Qdiv. change (@of_Z Q exactQ) with inject_Z.
  set (n := inject_Z (Z.of_nat (List.length (x :: xs)))).
  assert (Hn : 0 < n).
  { unfold n. change 0 with (inject_Z 0). rewrite <- Zlt_Qlt. simpl List.length. lia. }
  destruct (smallest_le xs x) as [Hlo1 Hlo2].
  destruct (largest_ge xs x) as [Hhi1 Hhi2].
  split.
  - apply Qle_shift_div_l; [exact Hn|].
    eapply Qle_trans; [|apply (sum_from_lower (smallest x xs))].
    + fold n. change (inject_Z 0) with 0. rewrite Qplus_0_l, Qmult_comm. apply Qle_refl.
    + intros y [<-|Hy]; auto.
  - apply Qle_shift_div_r; [exact Hn|].
    eapply Qle_trans; [apply (sum_from_upper (largest x xs))|].
    + intros y [<-|Hy]; auto.
    + fold n. change (inject_Z 0) with 0. rewrite Qplus_0_l, Qmult_comm. apply Qle_refl.
Qed.

End ExactFacts.


(** ** Claims on the aggregation *)

(** C3: [build_quality_metrics] returns, for a non-empty sequence, the
    arithmetic means of the per-segment values after fallback substitution,
    and for the empty sequence the sentinel triple; a segment that lacks all
    three fields, or holds no number in them, counts as [(0.0, -1.0, 1.0)],
    and the sentinel is [(1.0, -10.0, 10.0)]. *)
Theorem build_quality_metrics_is_mean :
  (forall (F : Type) (A : Arith F) (segments : list (Segment F)),
      build_quality_metrics segments = spec_quality_metrics segments)
  /\ (forall (F : Type) (A : Arith F) (v : pyvalue F) (fallback : F),
         safe_float v fallback
         = match number_of v with Some x => x | None => fallback end)
  /\ substitute (F := float) []
     = {| no_speech_prob := 0.0%float;
          logprob := (-1.0)%float;
          compression_ratio := 1.0%float |}
  /\ build_quality_metrics (F := float) []
     = {| avg_no_speech_prob := 1.0%float;
          avg_logprob := (-10.0)%float;
          avg_compression_ratio := 10.0%float |}.
Proof.
  split; [|split; [|split]].
  - intros F A segments. apply build_quality_metrics_spec.
  - intros F A v fallback. apply safe_float_with_fallback.
  - reflexivity.
  - reflexivity.
Qed.

(** C9 as stated fails in binary64: the mean of three segments that all report
    [0.1] is [0.10000000000000002], above the largest of them. *)
Lemma binary64_mean_outside_hull : ~ metrics_in_hull three_alike.
Proof.
  intros [Hnsp _]. vm_compute in Hnsp. discriminate Hnsp.
Qed.

(** Nor does the mean stay in the hull when the sum overflows: two
    compression ratios of [1e308] average to infinity. *)
Lemma binary64_mean_overflows :
  avg_compression_ratio (build_quality_metrics two_huge) = infinity
  /\ ~ metrics_in_hull two_huge.
Proof.
  split; [reflexivity|].
  intros (_ & _ & Hcr). vm_compute in Hcr. discriminate Hcr.
Qed.

(** C9, amended: with the sum and the quotient taken exactly, each metric of
    a non-empty sequence lies between the smallest and the largest of the
    per-segment values after fallback substitution; the metrics of the empty
    sequence are exactly [(1.0, -10.0, 10.0)]. *)
Theorem exact_mean_within_hull :
  (forall segments : list (Segment Q), metrics_in_hull segments)
  /\ metrics_in_hull (F := float) []
  /\ build_quality_metrics (F := float) []
     = {| avg_no_speech_prob := 1.0%float;
          avg_logprob := (-10.0)%float;
          avg_compression_ratio := 10.0%float |}.
Proof.
  split; [|split; reflexivity].
  intros segments. unfold metrics_in_hull.
  destruct segments as [|s l]; [reflexivity|].
  rewrite build_quality_metrics_spec.
  unfold spec_quality_metrics.
  cbn [map avg_no_speech_prob avg_logprob avg_compression_ratio].
  repeat split; apply mean_within_hull; discriminate.
Qed.


(** ** Runs of the program *)

(** Unfold the computation down to the answers of the collaborators. *)
Ltac unfold_run :=
  cbv beta iota zeta delta
    [run emitted exit_code main on_exception bind ret try_except when call lift
     time_time emit initial default_exit_code negb fst snd stdout calls ticks app].

(** Split on the next answer or test the run waits for. *)
Ltac run_step :=
  match goal with
  | |- context [match ?x with Ret _ => _ | Raise _ => _ end] => destruct x eqn:?
  | |- context [if ?c then _ else _] => destruct c eqn:?
  end; unfold_run.

Ltac run_cases := unfold_run; repeat run_step.

(** The collaborators' answers of the hypotheses, used as rewrite rules. *)
Ltac run_with H := rewrite H; unfold_run.

Lemma max_duration_literal : float_of_Z MAX_DURATION_SECONDS = 3600%float.
Proof. reflexivity. Qed.

(** After a transcription the run ends at the quality gate, with one of
    three objects. *)
Lemma run_transcribed (w : World) (args : Args) (duration : float)
    (result : Transcription) :
  transcribed w args duration result ->
  let raw_text := text_of result in
  let segments := segments_of result in
  let quality := build_quality_metrics segments in
  emitted w args
  = Some (if unclear_audio_rule raw_text quality then
            [("ok", JBool false);
             ("error_code", JStr "unclear_audio");
             ("message", JStr "Couldn't hear clearly");
             ("quality", quality_json quality)]
          else if background_noise_rule quality then
            [("ok", JBool false);
             ("error_code", JStr "background_noise");
             ("message", JStr "Try quieter place");
             ("quality", quality_json quality)]
          else
            [("ok", JBool true);
             ("meeting_id", JStr (arg_meeting_id args));
             ("model", JStr (model_name (arg_model args)));
             ("duration_seconds", JFloat duration);
             ("processing_seconds", JFloat (PrimFloat.sub (clock w 1) (clock w 0)));
             ("segment_count", JInt (Z.of_nat (List.length segments)));
             ("transcript_text", JStr raw_text);
             ("quality", quality_json quality)]).
Proof.
  intros (n & (Hfile & Himp & Haudio) & Hdiv & Hlen & Hmodel & Htr).
  unfold kwargs_of in Htr. unfold_run.
  run_with Hfile. run_with Himp. run_with Haudio. run_with Hdiv.
  run_with Hlen. run_with Hmodel. run_with Htr.
  fold (text_of result). fold (segments_of result).
  destruct (unclear_audio_rule _ _); unfold_run; [reflexivity|].
  destruct (background_noise_rule _); unfold_run; reflexivity.
Qed.

Lemma unclear_audio_rule_iff (raw_text : string) (quality : Quality float) :
  unclear_audio_rule raw_text quality = true
  <-> PyStr.len raw_text < 8
      \/ PrimFloat.leb 0.78 (avg_no_speech_prob quality) = true.
Proof.
  unfold unclear_audio_rule. now rewrite orb_true_iff, Z.ltb_lt.
Qed.

Lemma background_noise_rule_iff (quality : Quality float) :
  background_noise_rule quality = true
  <-> PrimFloat.ltb 2.4 (avg_compression_ratio quality) = true
      /\ PrimFloat.ltb (avg_logprob quality) (-0.9) = true
      /\ PrimFloat.ltb 0.45 (avg_no_speech_prob quality) = true.
Proof.
  unfold background_noise_rule. rewrite !andb_true_iff. tauto.
Qed.

(** ** Claims on the quality gate *)

(** C1: after a transcription the program emits the Failure [unclear_audio]
    if and only if the trimmed text is shorter than 8 characters or
    [avg_no_speech_prob >= 0.78]; the rule comes first, so whenever it holds
    the object written is the [unclear_audio] one, whatever the noise rule
    would say; 8 characters with [avg_no_speech_prob = 0.77] pass the rule
    and 7 characters fail it. *)
Theorem unclear_audio_rule_decides (w : World) (args : Args) (duration : float)
    (result : Transcription) :
  transcribed w args duration result ->
  let raw_text := text_of result in
  let quality := build_quality_metrics (segments_of result) in
  let unclear :=
    PyStr.len raw_text < 8
    \/ PrimFloat.leb 0.78 (avg_no_speech_prob quality) = true in
  (emits_failure w args "unclear_audio" <-> unclear)
  /\ (unclear ->
      emitted w args
      = Some [("ok", JBool false);
              ("error_code", JStr "unclear_audio");
              ("message", JStr "Couldn't hear clearly");
              ("quality", quality_json quality)])
  /\ (PyStr.len raw_text = 8 ->
      avg_no_speech_prob quality = 0.77%float ->
      ~ emits_failure w args "unclear_audio")
  /\ (PyStr.len raw_text = 7 -> emits_failure w args "unclear_audio").
Proof.
  intros Hrun raw_text quality unclear.
  pose proof (run_transcribed w args duration result Hrun) as Hp.
  cbv zeta in Hp. fold raw_text quality in Hp.
  assert (Hrule : unclear_audio_rule raw_text quality = true <-> unclear)
    by apply unclear_audio_rule_iff.
  assert (Hiff : emits_failure w args "unclear_audio" <-> unclear).
  { unfold emits_failure. rewrite Hp. split.
    - intros (p & [= <-] & _ & Hcode). apply Hrule.
      destruct (unclear_audio_rule raw_text quality); [reflexivity|].
      destruct (background_noise_rule quality); discriminate Hcode.
    - intros Hu. apply Hrule in Hu. rewrite Hu. eexists. repeat split. }
  split; [exact Hiff|]. split; [|split].
  - intros Hu. apply Hrule in Hu. now rewrite Hp, Hu.
  - intros Hlen Havg Hemit. apply Hiff in Hemit. unfold unclear in Hemit.
    rewrite Hlen, Havg in Hemit. destruct Hemit as [Hlt|Hge]; [lia|discriminate Hge].
  - intros Hlen. apply Hiff. left. lia.
Qed.

(** C2: after a transcription that passes the [unclear_audio] rule, the
    program emits the Failure [background_noise] if and only if
    [avg_compression_ratio > 2.4], [avg_logprob < -0.9] and
    [avg_no_speech_prob > 0.45] all hold; when one of them fails it emits a
    Success. *)
Theorem background_noise_rule_decides (w : World) (args : Args) (duration : float)
    (result : Transcription) :
  transcribed w args duration result ->
  let quality := build_quality_metrics (segments_of result) in
  unclear_audio_rule (text_of result) quality = false ->
  (emits_failure w args "background_noise"
   <-> PrimFloat.ltb 2.4 (avg_compression_ratio quality) = true
       /\ PrimFloat.ltb (avg_logprob quality) (-0.9) = true
       /\ PrimFloat.ltb 0.45 (avg_no_speech_prob quality) = true)
  /\ (PrimFloat.ltb 2.4 (avg_compression_ratio quality) = false
      \/ PrimFloat.ltb (avg_logprob quality) (-0.9) = false
      \/ PrimFloat.ltb 0.45 (avg_no_speech_prob quality) = false ->
      emits_success w args /\ ~ emits_failure w args "background_noise").
Proof.
  intros Hrun quality Hclear.
  pose proof (run_transcribed w args duration result Hrun) as Hp.
  cbv zeta in Hp. fold quality in Hp. rewrite Hclear in Hp.
  rewrite <- background_noise_rule_iff.
  assert (Hiff : emits_failure w args "background_noise"
                 <-> background_noise_rule quality = true).
  { unfold emits_failure. rewrite Hp. split.
    - intros (p & [= <-] & _ & Hcode).
      destruct (background_noise_rule quality); [reflexivity | discriminate Hcode].
    - intros ->. eexists. repeat split. }
  split; [exact Hiff|].
  intros Hfails.
  assert (Hrule : background_noise_rule quality = false).
  { unfold background_noise_rule.
    destruct Hfails as [-> | [-> | ->]];
      rewrite ?andb_false_r; reflexivity. }
  split.
  - unfold emits_success. rewrite Hp, Hrule. eexists. split; reflexivity.
  - rewrite Hiff, Hrule. discriminate.
Qed.

(** C4: when the model returns no segment, whatever the text, the program
    emits the Failure [unclear_audio] with the quality
    [(1.0, -10.0, 10.0)]. *)
Theorem zero_segments_unclear_audio (w : World) (args : Args) (duration : float)
    (result : Transcription) :
  transcribed w args duration result ->
  res_segments result = Some [] \/ res_segments result = None ->
  emitted w args
  = Some [("ok", JBool false);
          ("error_code", JStr "unclear_audio");
          ("message", JStr "Couldn't hear clearly");
          ("quality",
           JObj [("avg_no_speech_prob", JFloat 1.0);
                 ("avg_logprob", JFloat (-10.0));
                 ("avg_compression_ratio", JFloat 10.0)])].
Proof.
  intros Hrun Hnone.
  pose proof (run_transcribed w args duration result Hrun) as Hp.
  cbv zeta in Hp.
  assert (Hsegs : segments_of result = []).
  { unfold segments_of. destruct Hnone as [-> | ->]; reflexivity. }
  rewrite Hsegs in Hp.
  assert (Hrule : forall t,
             unclear_audio_rule t (build_quality_metrics (F := float) []) = true).
  { intros t. unfold unclear_audio_rule. apply orb_true_r. }
  now rewrite Hrule in Hp.
Qed.


(** ** Claims on the duration guard *)

(** C5: the duration is the number of samples divided by the sample rate;
    when it exceeds 3600 the program emits the Failure [too_long] with that
    duration and calls neither the model loader nor the model; it emits
    [too_long] in no other case, so a duration of exactly 3600 is not
    rejected. *)
Theorem duration_guard (w : World) (args : Args) (audio_len : N) (duration : float) :
  audio_loaded w args audio_len ->
  int_truediv (Z.of_N audio_len) (SAMPLE_RATE w) = Ret duration ->
  (PrimFloat.ltb 3600 duration = true ->
   emitted w args
   = Some [("ok", JBool false);
           ("error_code", JStr "too_long");
           ("message", JStr "Please split into 1 hour parts");
           ("duration_seconds", JFloat duration)]
   /\ existsb invokes_model (calls (snd (run w args))) = false)
  /\ (emits_failure w args "too_long" -> PrimFloat.ltb 3600 duration = true)
  /\ (duration = 3600%float -> ~ emits_failure w args "too_long").
Proof.
  intros (Hfile & Himp & Haudio) Hdiv.
  assert (Honly : emits_failure w args "too_long" -> PrimFloat.ltb 3600 duration = true).
  { unfold emits_failure. unfold_run.
    run_with Hfile. run_with Himp. run_with Haudio. run_with Hdiv.
    rewrite max_duration_literal.
    destruct (PrimFloat.ltb 3600 duration); [reflexivity|].
    unfold_run. repeat run_step; intros (p & [= <-] & _ & [=]). }
  split; [|split].
  - intros Hlong. unfold_run.
    run_with Hfile. run_with Himp. run_with Haudio. run_with Hdiv.
    rewrite max_duration_literal, Hlong. unfold_run. split; reflexivity.
  - exact Honly.
  - intros -> Hemit. apply Honly in Hemit. discriminate Hemit.
Qed.

(** ** Claims on the exit code *)

(** On a missing file the exit code does not tell the outcome: the run
    writes a Failure and exits with code 0. *)
Lemma failure_exits_zero : ~ exit_code_tells_outcome world_without_file sample_args.
Proof.
  intros Hclaim.
  destruct (Hclaim [("ok", JBool false);
                    ("error_code", JStr "missing_file");
                    ("message", JStr "Audio file not found.")] eq_refl)
    as [_ Hfail].
  destruct (Hfail eq_refl) as (code & [= <-] & Hcode).
  now apply Hcode.
Qed.

(** Every run over parsed arguments writes exactly one object and ends with
    exit code 0, for a Success and for a Failure alike: no call of [emit]
    passes an exit code. *)
Theorem exit_code_always_zero (w : World) (args : Args) :
  exists p,
    stdout (snd (run w args)) = [p]
    /\ fst (run w args) = Exit 0
    /\ emitted w args = Some p
    /\ exit_code w args = Some 0
    /\ (is_success p = true \/ is_failure p = true).
Proof.
  run_cases; eexists; repeat split; (left; reflexivity) || (right; reflexivity).
Qed.

(** C6: the code does not do this for a Failure. [emit] exits with the code
    it is given ([sys.exit(exit_code)]), so a Failure could end with a
    non-zero code; but the call for a missing file, like every other call,
    gives none, and the run that writes the [missing_file] Failure ends with
    the default exit code, 0. *)
Theorem missing_file_exits_zero :
  emitted world_without_file sample_args
  = Some [("ok", JBool false);
          ("error_code", JStr "missing_file");
          ("message", JStr "Audio file not found.")]
  /\ is_failure [("ok", JBool false);
                 ("error_code", JStr "missing_file");
                 ("message", JStr "Audio file not found.")] = true
  /\ exit_code world_without_file sample_args = Some default_exit_code
  /\ default_exit_code = 0
  /\ (forall {A : Type} (payload : Payload) (code : Z) (st : State),
         fst (emit (A := A) payload code st) = Exit code).
Proof.
  repeat split.
Qed.

(** ** Claims on unexpected failures *)

(** The handler of the transcription block, on a failure text. *)
Lemma run_failed (w : World) (args : Args) (msg : string) :
  failed_in_transcription w args msg ->
  emitted w args
  = Some [("ok", JBool false);
          ("error_code",
           JStr (if mentions_missing_tool (PyStr.lower msg)
                 then "dependency_missing" else "transcription_failed"));
          ("message",
           JStr (if mentions_missing_tool (PyStr.lower msg)
                 then "Whisper requires ffmpeg installed on the server."
                 else "Transcription failed unexpectedly."));
          ("details", JStr msg)].
Proof.
  intros (Hfile & Himp & Hraise). unfold kwargs_of in Hraise. unfold_run.
  run_with Hfile. run_with Himp.
  destruct Hraise as [Haudio | (n & Haudio & [Hdiv | (d & Hdiv & Hlen & Hraise)])].
  - run_with Haudio. destruct (mentions_missing_tool _); reflexivity.
  - run_with Haudio. run_with Hdiv. destruct (mentions_missing_tool _); reflexivity.
  - run_with Haudio. run_with Hdiv. run_with Hlen.
    destruct Hraise as [Hmodel | [Hmodel Htr]].
    + run_with Hmodel. destruct (mentions_missing_tool _); reflexivity.
    + run_with Hmodel. run_with Htr. destruct (mentions_missing_tool _); reflexivity.
Qed.

(** C7: a failure raised inside the transcription block is emitted as
    [dependency_missing] if and only if its text contains, letter case
    apart, ["ffmpeg"], ["winerror 2"] or ["system cannot find the file
    specified"], and as [transcription_failed] otherwise; the text itself is
    the [details] of the Failure. *)
Theorem exception_classification (w : World) (args : Args) (msg : string) :
  failed_in_transcription w args msg ->
  let missing_tool :=
    occurs_ignoring_case "ffmpeg" msg
    \/ occurs_ignoring_case "winerror 2" msg
    \/ occurs_ignoring_case "system cannot find the file specified" msg in
  exists p,
    emitted w args = Some p
    /\ is_failure p = true
    /\ field "details" p = Some (JStr msg)
    /\ (error_code p = Some "dependency_missing" <-> missing_tool)
    /\ (error_code p = Some "transcription_failed" <-> ~ missing_tool).
Proof.
  intros Hfail missing_tool.
  pose proof (mentions_missing_tool_iff msg) as Hiff. fold missing_tool in Hiff.
  rewrite (run_failed w args msg Hfail).
  eexists. split; [reflexivity|]. split; [reflexivity|]. split; [reflexivity|].
  destruct (mentions_missing_tool (PyStr.lower msg)); cbn.
  - split; split; intros Hx; try reflexivity; try discriminate Hx.
    + now apply Hiff.
    + exfalso. apply Hx. now apply Hiff.
  - assert (Hno : ~ missing_tool) by (intros Hm; apply Hiff in Hm; discriminate Hm).
    split; split; intros Hx; try reflexivity; try discriminate Hx; tauto.
Qed.


(** ** Claims on the shape of a Failure *)

(** C8 as stated fails: [dependency_missing] goes with two messages, one when
    [whisper] does not import and one when the transcription block fails for
    want of ffmpeg. *)
Lemma message_not_determined_by_code : ~ message_determined_by_code.
Proof.
  intros [message_of Hfun].
  pose proof (Hfun world_without_whisper sample_args _ "dependency_missing"
                eq_refl eq_refl eq_refl) as Himport.
  pose proof (Hfun (world_with (Raise "ffmpeg was not found") (Ret tt) (Ret clear_speech))
                sample_args _ "dependency_missing" eq_refl eq_refl eq_refl) as Hrun.
  cbv in Himport, Hrun. rewrite <- Hrun in Himport. discriminate Himport.
Qed.

(** C8, amended: the message of a Failure is one of the seven literals of
    [failure_messages], the one listed with its error code; every code but
    [dependency_missing] has a single message; the message is never built
    from a failure text, and the only string of the object besides the error
    code and the message is the one stored under [details]. *)
Theorem failure_message_fixed (w : World) (args : Args) (p : Payload) :
  emitted w args = Some p ->
  is_failure p = true ->
  exists code text extra,
    p = ("ok", JBool false) :: ("error_code", JStr code) :: ("message", JStr text)
          :: extra
    /\ In (code, text) failure_messages
    /\ (code <> "dependency_missing" ->
        forall text', In (code, text') failure_messages -> text' = text)
    /\ (forall key s, In (key, JStr s) extra -> key = "details").
Proof.
  run_cases; intros [= <-] Hfail; try discriminate Hfail;
    eexists _, _, _; (split; [reflexivity|]); (split; [cbn; tauto|]);
    (split;
     [ intros Hne text' Hin; cbn in Hin;
       repeat destruct Hin as [Hin|Hin]; congruence || contradiction
     | intros key s Hin; unfold quality_json in Hin; cbn in Hin;
       repeat destruct Hin as [Hin|Hin]; congruence || contradiction ]).
Qed.

(** C10: the optional fields of a Failure follow from its error code:
    [unclear_audio] and [background_noise] carry the quality and neither a
    duration nor details; [too_long] carries the duration and neither the
    quality nor details; [missing_file] carries none of the three; details
    are carried by [dependency_missing] and [transcription_failed] and by no
    other code. *)
Theorem failure_optional_fields (w : World) (args : Args) (p : Payload)
    (code : string) :
  emitted w args = Some p ->
  is_failure p = true ->
  error_code p = Some code ->
  (code = "unclear_audio" \/ code = "background_noise" ->
   optional_fields p = (true, false, false))
  /\ (code = "too_long" -> optional_fields p = (false, true, false))
  /\ (code = "missing_file" -> optional_fields p = (false, false, false))
  /\ (code = "dependency_missing" \/ code = "transcription_failed" ->
      optional_fields p = (false, false, true))
  /\ (has_key "details" p = true ->
      code = "dependency_missing" \/ code = "transcription_failed")
  /\ In code ["missing_file"; "dependency_missing"; "too_long"; "unclear_audio";
              "background_noise"; "transcription_failed"].
Proof.
  run_cases; intros [= <-] Hfail [= <-]; try discriminate Hfail;
    repeat split; cbn; intros; tauto || congruence || intuition discriminate.
Qed.


(** ** The claims on sample runs *)

(** Ten seconds of clear speech pass the first rule. *)
Lemma unclear_audio_rule_decides_witness :
  transcribed (world_with (Ret 160000%N) (Ret tt) (Ret clear_speech))
    sample_args 10%float clear_speech
  /\ ~ emits_failure (world_with (Ret 160000%N) (Ret tt) (Ret clear_speech))
         sample_args "unclear_audio".
Proof.
  assert (Hrun : transcribed (world_with (Ret 160000%N) (Ret tt) (Ret clear_speech))
                   sample_args 10%float clear_speech)
    by (exists 160000%N; repeat split).
  split; [exact Hrun|].
  destruct (unclear_audio_rule_decides _ _ _ _ Hrun) as [Hiff _].
  intros Hemit. apply Hiff in Hemit.
  destruct Hemit as [Hlen | Hprob]; [discriminate Hlen | discriminate Hprob].
Defined.

(** Scenario D: a long text over one garbled segment is [background_noise]. *)
Lemma background_noise_rule_decides_witness :
  transcribed (world_with (Ret 160000%N) (Ret tt) (Ret noisy_speech))
    sample_args 10%float noisy_speech
  /\ emits_failure (world_with (Ret 160000%N) (Ret tt) (Ret noisy_speech))
       sample_args "background_noise".
Proof.
  assert (Hrun : transcribed (world_with (Ret 160000%N) (Ret tt) (Ret noisy_speech))
                   sample_args 10%float noisy_speech)
    by (exists 160000%N; repeat split).
  split; [exact Hrun|].
  destruct (background_noise_rule_decides _ _ _ _ Hrun eq_refl) as [Hiff _].
  apply Hiff. repeat split.
Defined.

(** Scenario C: a text without segments is [unclear_audio]. *)
Lemma zero_segments_unclear_audio_witness :
  emitted (world_with (Ret 160000%N) (Ret tt) (Ret no_segments)) sample_args
  = Some [("ok", JBool false);
          ("error_code", JStr "unclear_audio");
          ("message", JStr "Couldn't hear clearly");
          ("quality",
           JObj [("avg_no_speech_prob", JFloat 1.0);
                 ("avg_logprob", JFloat (-10.0));
                 ("avg_compression_ratio", JFloat 10.0)])].
Proof.
  apply (zero_segments_unclear_audio _ _ 10%float no_segments).
  - exists 160000%N. repeat split.
  - left. reflexivity.
Defined.

(** Scenario B: 64,000,000 samples at 16 kHz are 4000 seconds, too long. *)
Lemma duration_guard_witness :
  int_truediv 64000000 16000 = Ret 4000%float
  /\ emitted (world_with (Ret 64000000%N) (Ret tt) (Ret clear_speech)) sample_args
     = Some [("ok", JBool false);
             ("error_code", JStr "too_long");
             ("message", JStr "Please split into 1 hour parts");
             ("duration_seconds", JFloat 4000)].
Proof.
  split; [reflexivity|].
  apply (duration_guard (world_with (Ret 64000000%N) (Ret tt) (Ret clear_speech))
           sample_args 64000000%N 4000%float).
  - repeat split.
  - reflexivity.
  - reflexivity.
Defined.

(** A loader that cannot start ffmpeg on Windows. *)
Lemma exception_classification_witness :
  exists p,
    emitted (world_with (Raise "[WinError 2] The system cannot find the file specified")
               (Ret tt) (Ret clear_speech)) sample_args = Some p
    /\ error_code p = Some "dependency_missing"
    /\ field "details" p
       = Some (JStr "[WinError 2] The system cannot find the file specified").
Proof.
  destruct (exception_classification
              (world_with (Raise "[WinError 2] The system cannot find the file specified")
                 (Ret tt) (Ret clear_speech))
              sample_args "[WinError 2] The system cannot find the file specified")
    as (p & Hp & _ & Hdetails & Hcode & _).
  - split; [reflexivity|]. split; [reflexivity|]. left. reflexivity.
  - exists p. split; [exact Hp|]. split; [|exact Hdetails].
    apply Hcode. right. left.
    exists "[", "WinError 2", "] The system cannot find the file specified".
    split; reflexivity.
Defined.

(** Scenario A: the message of [missing_file]. *)
Lemma failure_message_fixed_witness :
  emitted world_without_file sample_args
  = Some [("ok", JBool false);
          ("error_code", JStr "missing_file");
          ("message", JStr "Audio file not found.")]
  /\ exists code text extra,
       [("ok", JBool false);
        ("error_code", JStr "missing_file");
        ("message", JStr "Audio file not found.")]
       = ("ok", JBool false) :: ("error_code", JStr code) :: ("message", JStr text)
           :: extra
       /\ In (code, text) failure_messages.
Proof.
  split; [reflexivity|].
  destruct (failure_message_fixed world_without_file sample_args _ eq_refl eq_refl)
    as (code & text & extra & Hp & Hin & _).
  exists code, text, extra. split; [exact Hp | exact Hin].
Defined.

(** The fields of the [too_long] Failure of scenario B. *)
Lemma failure_optional_fields_witness :
  emitted (world_with (Ret 64000000%N) (Ret tt) (Ret clear_speech)) sample_args
  = Some [("ok", JBool false);
          ("error_code", JStr "too_long");
          ("message", JStr "Please split into 1 hour parts");
          ("duration_seconds", JFloat 4000)]
  /\ optional_fields [("ok", JBool false);
                      ("error_code", JStr "too_long");
                      ("message", JStr "Please split into 1 hour parts");
                      ("duration_seconds", JFloat 4000)]
     = (false, true, false).
Proof.
  split; [reflexivity|].
  apply (failure_optional_fields
           (world_with (Ret 64000000%N) (Ret tt) (Ret clear_speech))
           sample_args _ "too_long" eq_refl eq_refl eq_refl).
  reflexivity.
Defined.

(** * Further properties *)


(** ** Not-a-number in binary64 *)

Lemma add_nan_l (y : float) : PrimFloat.add nan y = nan.
Proof.
  apply Prim2SF_inj. rewrite add_spec.
  change (Prim2SF nan) with S754_nan. reflexivity.
Qed.

Lemma add_nan_r (x : float) : PrimFloat.add x nan = nan.
Proof.
  apply Prim2SF_inj. rewrite add_spec.
  change (Prim2SF nan) with S754_nan. unfold SF64add, SFadd.
  now destruct (Prim2SF x).
Qed.

Lemma div_nan_l (y : float) : PrimFloat.div nan y = nan.
Proof.
  apply Prim2SF_inj. rewrite div_spec.
  change (Prim2SF nan) with S754_nan. reflexivity.
Qed.

Lemma leb_nan_r (x : float) : PrimFloat.leb x nan = false.
Proof.
  rewrite leb_spec. change (Prim2SF nan) with S754_nan.
  unfold SFleb, SFcompare. now destruct (Prim2SF x) as [| | |[]].
Qed.

Lemma ltb_nan_r (x : float) : PrimFloat.ltb x nan = false.
Proof.
  rewrite ltb_spec. change (Prim2SF nan) with S754_nan.
  unfold SFltb, SFcompare. now destruct (Prim2SF x) as [| | |[]].
Qed.

Lemma ltb_nan_l (y : float) : PrimFloat.ltb nan y = false.
Proof.
  rewrite ltb_spec. change (Prim2SF nan) with S754_nan. reflexivity.
Qed.

Lemma sum_nan_absorbs (xs : list float) : fold_left PrimFloat.add xs nan = nan.
Proof.
  induction xs as [|x xs IH]; simpl; [reflexivity|]. now rewrite add_nan_l.
Qed.

Lemma sum_with_nan (xs : list float) (acc : float) :
  In nan xs -> fold_left PrimFloat.add xs acc = nan.
Proof.
  revert acc. induction xs as [|x xs IH]; intros acc Hin; [destruct Hin|].
  simpl. destruct Hin as [-> | Hin].
  - rewrite add_nan_r. apply sum_nan_absorbs.
  - now apply IH.
Qed.

(** A NaN in one segment makes the metric of that field NaN. *)
Lemma mean_of_field_nan (key : string) (fallback : float)
    (segments : list (Segment float)) (s : Segment float) :
  In s segments ->
  dict_get s key = PyFloat nan ->
  PrimFloat.div
    (py_sum (map (fun s => safe_float (dict_get s key) fallback) segments))
    (float_of_Z (Z.of_nat (List.length segments)))
  = nan.
Proof.
  intros Hin Hnan. unfold py_sum.
  change (@fadd float binary64) with PrimFloat.add.
  rewrite sum_with_nan; [apply div_nan_l|].
  apply in_map_iff. exists s. split; [|exact Hin].
  now rewrite Hnan.
Qed.


(** ** Every run, by the place where it ends *)

(** Close the case of an exception [msg] raised after [k] calls; [site]
    proves which collaborator raised it. *)
Ltac close_failed msg k site :=
  let Htool := fresh "Htool" in
  destruct (mentions_missing_tool (PyStr.lower msg)) eqn:Htool; unfold_run;
  eexists _, k;
  (split; [reflexivity|]); (split; [reflexivity|]); (split; [reflexivity|]);
  right; right; left; exists msg; rewrite Htool;
  (split; [split; [reflexivity|]; split; [reflexivity|]; site
          | split; [lia | reflexivity]]).

(** The five ways a run ends: at the file test, at the import, in the handler
    of the transcription block, at the duration guard, or at the quality
    gate. In each the run exits with code 0 after writing one object, and its
    calls are the first [k] of the pipeline. *)
Lemma run_inversion (w : World) (args : Args) :
  let input_path := abspath w (arg_input args) in
  exists (p : Payload) (k : nat),
    fst (run w args) = Exit 0
    /\ stdout (snd (run w args)) = [p]
    /\ calls (snd (run w args)) = firstn k (pipeline w args)
    /\ ((isfile w input_path = false
         /\ k = 1%nat
         /\ p = [("ok", JBool false);
                 ("error_code", JStr "missing_file");
                 ("message", JStr "Audio file not found.")])
        \/ (exists exc,
              isfile w input_path = true
              /\ import_whisper w = Raise exc
              /\ k = 2%nat
              /\ p = [("ok", JBool false);
                      ("error_code", JStr "dependency_missing");
                      ("message",
                       JStr "Whisper dependencies are not installed. Install python requirements and ffmpeg first.");
                      ("details", JStr exc)])
        \/ (exists msg,
              failed_in_transcription w args msg
              /\ (4 <= k <= 6)%nat
              /\ p = [("ok", JBool false);
                      ("error_code",
                       JStr (if mentions_missing_tool (PyStr.lower msg)
                             then "dependency_missing" else "transcription_failed"));
                      ("message",
                       JStr (if mentions_missing_tool (PyStr.lower msg)
                             then "Whisper requires ffmpeg installed on the server."
                             else "Transcription failed unexpectedly."));
                      ("details", JStr msg)])
        \/ (exists audio_len duration,
              audio_loaded w args audio_len
              /\ int_truediv (Z.of_N audio_len) (SAMPLE_RATE w) = Ret duration
              /\ PrimFloat.ltb 3600 duration = true
              /\ k = 4%nat
              /\ p = [("ok", JBool false);
                      ("error_code", JStr "too_long");
                      ("message", JStr "Please split into 1 hour parts");
                      ("duration_seconds", JFloat duration)])
        \/ (exists duration result,
              transcribed w args duration result
              /\ let raw_text := text_of result in
                 let segments := segments_of result in
                 let quality := build_quality_metrics segments in
                 (unclear_audio_rule raw_text quality = true
                  /\ k = 6%nat
                  /\ p = [("ok", JBool false);
                          ("error_code", JStr "unclear_audio");
                          ("message", JStr "Couldn't hear clearly");
                          ("quality", quality_json quality)])
                 \/ (unclear_audio_rule raw_text quality = false
                     /\ background_noise_rule quality = true
                     /\ k = 6%nat
                     /\ p = [("ok", JBool false);
                             ("error_code", JStr "background_noise");
                             ("message", JStr "Try quieter place");
                             ("quality", quality_json quality)])
                 \/ (unclear_audio_rule raw_text quality = false
                     /\ background_noise_rule quality = false
                     /\ k = 7%nat
                     /\ p = [("ok", JBool true);
                             ("meeting_id", JStr (arg_meeting_id args));
                             ("model", JStr (model_name (arg_model args)));
                             ("duration_seconds", JFloat duration);
                             ("processing_seconds",
                              JFloat (PrimFloat.sub (clock w 1) (clock w 0)));
                             ("segment_count", JInt (Z.of_nat (List.length segments)));
                             ("transcript_text", JStr raw_text);
                             ("quality", quality_json quality)]))).
Proof.
  intros input_path. unfold failed_in_transcription, transcribed, audio_loaded.
  fold input_path. unfold kwargs_of, pipeline. fold input_path.
  unfold_run. fold input_path.
  destruct (isfile w input_path) eqn:Hfile; unfold_run.
  2:{ eexists _, 1%nat. repeat split. left. repeat split. }
  destruct (import_whisper w) as [[]|exc] eqn:Himp; unfold_run.
  2:{ eexists _, 2%nat. repeat split. right; left. exists exc. repeat split. }
  destruct (load_audio w input_path) as [n|msg] eqn:Haudio; unfold_run.
  2:{ close_failed msg 4%nat ltac:(now left). }
  destruct (int_truediv (Z.of_N n) (SAMPLE_RATE w)) as [d|msg] eqn:Hdiv; unfold_run.
  2:{ close_failed msg 4%nat
        ltac:(right; exists n; split; [reflexivity|]; left; assumption). }
  rewrite max_duration_literal.
  destruct (PrimFloat.ltb 3600 d) eqn:Hlong; unfold_run.
  { eexists _, 4%nat. repeat split. right; right; right; left.
    exists n, d. repeat split; assumption. }
  destruct (load_model w (model_name (arg_model args))) as [[]|msg] eqn:Hmodel;
    unfold_run.
  2:{ close_failed msg 5%nat
        ltac:(right; exists n; split; [reflexivity|];
              right; exists d; split; [assumption|]; split; [assumption|];
              now left). }
  match goal with
  | |- context [transcribe w input_path ?kw] =>
      destruct (transcribe w input_path kw) as [r|msg] eqn:Htr
  end; unfold_run.
  2:{ close_failed msg 6%nat
        ltac:(right; exists n; split; [reflexivity|];
              right; exists d; split; [assumption|]; split; [assumption|];
              right; split; reflexivity). }
  fold (text_of r). fold (segments_of r).
  destruct (unclear_audio_rule (text_of r) (build_quality_metrics (segments_of r)))
    eqn:Hunclear; unfold_run.
  { eexists _, 6%nat. repeat split. right; right; right; right.
    exists d, r. split; [exists n; repeat split; assumption|]. cbv zeta. rewrite Hunclear. left. repeat split. }
  destruct (background_noise_rule (build_quality_metrics (segments_of r)))
    eqn:Hnoise; unfold_run.
  { eexists _, 6%nat. repeat split. right; right; right; right.
    exists d, r. split; [exists n; repeat split; assumption|]. cbv zeta. rewrite Hunclear, Hnoise.
    right; left. repeat split. }
  eexists _, 7%nat. repeat split. right; right; right; right.
  exists d, r. split; [exists n; repeat split; assumption|]. cbv zeta. rewrite Hunclear, Hnoise.
  right; right. repeat split.
Qed.


Lemma emitted_of_stdout (w : World) (args : Args) (p : Payload) :
  stdout (snd (run w args)) = [p] -> emitted w args = Some p.
Proof. unfold emitted. now intros ->. Qed.

(** Name the object and the case of a run. *)
Ltac invert_run w args p k Hcase :=
  let Hexit := fresh "Hexit" in
  let Hout := fresh "Hout" in
  let Hcalls := fresh "Hcalls" in
  destruct (run_inversion w args) as (p & k & Hexit & Hout & Hcalls & Hcase);
  apply emitted_of_stdout in Hout.

(** ** White space *)

Lemma lstrip_blank (s : string) : blank s = true -> PyStr.lstrip s = EmptyString.
Proof.
  induction s as [|c s IH]; simpl; [reflexivity|].
  intros Hb. apply andb_true_iff in Hb as [Hc Hs]. now rewrite Hc, IH.
Qed.

Lemma strip_blank (s : string) : blank s = true -> PyStr.strip s = EmptyString.
Proof. intros Hb. unfold PyStr.strip. now rewrite lstrip_blank. Qed.

Lemma lstrip_fixed (s : string) : PyStr.lstrip (PyStr.lstrip s) = PyStr.lstrip s.
Proof.
  induction s as [|c s IH]; simpl; [reflexivity|].
  destruct (PyStr.is_space c) eqn:Hc; [exact IH|]. simpl. now rewrite Hc.
Qed.

Lemma rstrip_fixed (s : string) : PyStr.rstrip (PyStr.rstrip s) = PyStr.rstrip s.
Proof.
  induction s as [|c s IH]; simpl; [reflexivity|].
  destruct (PyStr.rstrip s) as [|d r] eqn:Hr.
  - destruct (PyStr.is_space c) eqn:Hc; simpl; [reflexivity | now rewrite Hc].
  - cbn [PyStr.rstrip] in *. now rewrite IH.
Qed.

Lemma lstrip_rstrip (u : string) :
  PyStr.lstrip u = u -> PyStr.lstrip (PyStr.rstrip u) = PyStr.rstrip u.
Proof.
  destruct u as [|c u]; [reflexivity|]. simpl.
  destruct (PyStr.is_space c) eqn:Hc.
  - intros Hu. exfalso.
    assert (Hlen : forall s, (String.length (PyStr.lstrip s) <= String.length s)%nat).
    { induction s as [|a s IHs]; simpl; [lia|].
      destruct (PyStr.is_space a); simpl; lia. }
    specialize (Hlen u). rewrite Hu in Hlen. simpl in Hlen. lia.
  - intros _. destruct (PyStr.rstrip u); simpl; now rewrite Hc.
Qed.

(** [strip] leaves nothing more to strip. *)
Lemma strip_fixed (s : string) : PyStr.strip (PyStr.strip s) = PyStr.strip s.
Proof.
  unfold PyStr.strip.
  rewrite (lstrip_rstrip (PyStr.lstrip s)) by apply lstrip_fixed.
  apply rstrip_fixed.
Qed.

(** ** Further properties of a run *)

(** X1: the file test comes first. *)
Theorem missing_file_first (w : World) (args : Args) :
  let input_path := abspath w (arg_input args) in
  (emits_failure w args "missing_file" <-> isfile w input_path = false)
  /\ (isfile w input_path = false ->
      emitted w args
      = Some [("ok", JBool false);
              ("error_code", JStr "missing_file");
              ("message", JStr "Audio file not found.")]
      /\ calls (snd (run w args)) = [CallIsFile input_path]).
Proof.
  intros input_path. subst input_path. invert_run w args p k Hcase.
  cbv zeta in Hcase.
  assert (Hmissing : isfile w (abspath w (arg_input args)) = false ->
            emitted w args
            = Some [("ok", JBool false);
                    ("error_code", JStr "missing_file");
                    ("message", JStr "Audio file not found.")]
            /\ calls (snd (run w args)) = [CallIsFile (abspath w (arg_input args))]).
  { intros Hfile.
    destruct Hcase as [(_ & -> & ->) | [(exc & Hf & _) | [(msg & (Hf & _) & _)
      | [(n & d & (Hf & _) & _) | (d & r & (n & (Hf & _) & _) & _)]]]];
      try congruence.
    split; [exact Hout | exact Hcalls]. }
  split; [|exact Hmissing].
  split.
  - intros (q & Hq & _ & Hcode). rewrite Hout in Hq. injection Hq as <-.
    destruct Hcase as [(Hf & _) | [(exc & _ & _ & _ & ->) | [(msg & _ & _ & ->)
      | [(n & d & _ & _ & _ & _ & ->) | (d & r & _ & Hgate)]]]];
      [exact Hf | discriminate Hcode | | discriminate Hcode | ].
    + cbn in Hcode. destruct (mentions_missing_tool _); discriminate Hcode.
    + cbv zeta in Hgate.
      destruct Hgate as [(_ & _ & ->) | [(_ & _ & _ & ->) | (_ & _ & _ & ->)]];
        discriminate Hcode.
  - intros Hfile. destruct (Hmissing Hfile) as [Hp _].
    exists [("ok", JBool false);
            ("error_code", JStr "missing_file");
            ("message", JStr "Audio file not found.")].
    repeat split. exact Hp.
Qed.


(** X2: a failed import of [whisper] is reported at once, whatever its
    text. *)
Theorem import_failure_reported (w : World) (args : Args) (exc : string) :
  isfile w (abspath w (arg_input args)) = true ->
  import_whisper w = Raise exc ->
  emitted w args
  = Some [("ok", JBool false);
          ("error_code", JStr "dependency_missing");
          ("message",
           JStr "Whisper dependencies are not installed. Install python requirements and ffmpeg first.");
          ("details", JStr exc)]
  /\ calls (snd (run w args))
     = [CallIsFile (abspath w (arg_input args)); CallImportWhisper].
Proof.
  intros Hfile Himp. unfold_run. rewrite Hfile. unfold_run. rewrite Himp.
  split; reflexivity.
Qed.

(** X3: a Success is written only at the end of the whole pipeline. *)
Theorem success_after_full_pipeline (w : World) (args : Args) (p : Payload) :
  emitted w args = Some p ->
  is_success p = true ->
  exists duration result,
    transcribed w args duration result
    /\ calls (snd (run w args)) = pipeline w args
    /\ unclear_audio_rule (text_of result)
         (build_quality_metrics (segments_of result)) = false
    /\ background_noise_rule (build_quality_metrics (segments_of result)) = false
    /\ p = [("ok", JBool true);
            ("meeting_id", JStr (arg_meeting_id args));
            ("model", JStr (model_name (arg_model args)));
            ("duration_seconds", JFloat duration);
            ("processing_seconds", JFloat (PrimFloat.sub (clock w 1) (clock w 0)));
            ("segment_count", JInt (Z.of_nat (List.length (segments_of result))));
            ("transcript_text", JStr (text_of result));
            ("quality", quality_json (build_quality_metrics (segments_of result)))]
    /\ In (model_name (arg_model args)) ALLOWED_MODELS
    /\ 8 <= PyStr.len (text_of result)
    /\ PyStr.strip (text_of result) = text_of result.
Proof.
  intros Hp Hok. invert_run w args q k Hcase. cbv zeta in Hcase.
  rewrite Hp in Hout. injection Hout as <-.
  destruct Hcase as [(_ & _ & ->) | [(exc & _ & _ & _ & ->) | [(msg & _ & _ & ->)
    | [(n & d & _ & _ & _ & _ & ->) | (d & r & Hrun & Hgate)]]]];
    try discriminate Hok.
  destruct Hgate as [(_ & _ & ->) | [(_ & _ & _ & ->) | (Hunclear & Hnoise & -> & ->)]];
    try discriminate Hok.
  exists d, r. repeat split; try assumption.
  - destruct (arg_model args); simpl; tauto.
  - unfold unclear_audio_rule in Hunclear.
    apply orb_false_iff in Hunclear as [Hlen _]. apply Z.ltb_ge in Hlen. exact Hlen.
  - apply strip_fixed.
Qed.

(** X4: the calls of a run are an initial part of the pipeline. *)
Theorem calls_follow_pipeline (w : World) (args : Args) :
  exists k,
    (1 <= k)%nat
    /\ calls (snd (run w args)) = firstn k (pipeline w args).
Proof.
  invert_run w args p k Hcase. cbv zeta in Hcase. exists k. split; [|exact Hcalls].
  destruct Hcase as [(_ & -> & _) | [(exc & _ & _ & -> & _) | [(msg & _ & Hk & _)
    | [(n & d & _ & _ & _ & -> & _) | (d & r & _ & Hgate)]]]]; lia.
Qed.

(** X5: the model is only ever run on the input file with the fixed
    configuration. *)
Theorem transcribe_configuration (w : World) (args : Args) (path : string)
    (kwargs : Kwargs) :
  In (CallTranscribe path kwargs) (calls (snd (run w args))) ->
  path = abspath w (arg_input args)
  /\ kw_fp16 kwargs = false
  /\ kw_temperature kwargs = 0
  /\ kw_verbose kwargs = false
  /\ kw_task kwargs = "transcribe"
  /\ kw_language kwargs
     = match arg_language args with
       | Some (String c l) => Some (String c l)
       | _ => None
       end.
Proof.
  intros Hin. invert_run w args p k Hcase. rewrite Hcalls in Hin.
  assert (Hpipe : In (CallTranscribe path kwargs) (pipeline w args)).
  { rewrite <- (firstn_skipn k (pipeline w args)). apply in_or_app. now left. }
  unfold pipeline in Hpipe. simpl in Hpipe.
  repeat (destruct Hpipe as [Hpipe|Hpipe]; try discriminate Hpipe);
    [|contradiction].
  injection Hpipe as <- <-. repeat split.
  simpl. now destruct (arg_language args) as [[|c l]|].
Qed.

(** X11: a quality that is written is the aggregate of the segments the
    model returned. *)
Theorem quality_is_the_aggregate (w : World) (args : Args) (p : Payload) :
  emitted w args = Some p ->
  has_key "quality" p = true ->
  exists duration result,
    transcribed w args duration result
    /\ field "quality" p
       = Some (quality_json (build_quality_metrics (segments_of result))).
Proof.
  intros Hp Hq. invert_run w args q k Hcase. cbv zeta in Hcase.
  rewrite Hp in Hout. injection Hout as <-.
  destruct Hcase as [(_ & _ & ->) | [(exc & _ & _ & _ & ->) | [(msg & _ & _ & ->)
    | [(n & d & _ & _ & _ & _ & ->) | (d & r & Hrun & Hgate)]]]];
    try discriminate Hq.
  exists d, r. split; [exact Hrun|].
  destruct Hgate as [(_ & _ & ->) | [(_ & _ & _ & ->) | (_ & _ & _ & ->)]];
    reflexivity.
Qed.

Lemma int_truediv_finite (a b : Z) (q : float) :
  int_truediv a b = Ret q -> PrimFloat.is_finite q = true.
Proof.
  unfold int_truediv. destruct (b =? 0); [discriminate|].
  destruct (PrimFloat.is_finite _) eqn:Hfin; [|discriminate].
  now intros [= <-].
Qed.

(** X15: a duration that is written is a finite number. *)
Theorem duration_is_finite (w : World) (args : Args) (p : Payload) (d : float) :
  emitted w args = Some p ->
  field "duration_seconds" p = Some (JFloat d) ->
  PrimFloat.is_finite d = true
  /\ exists audio_len,
       audio_loaded w args audio_len
       /\ int_truediv (Z.of_N audio_len) (SAMPLE_RATE w) = Ret d.
Proof.
  intros Hp Hd. invert_run w args q k Hcase. cbv zeta in Hcase.
  rewrite Hp in Hout. injection Hout as <-.
  destruct Hcase as [(_ & _ & ->) | [(exc & _ & _ & _ & ->) | [(msg & _ & _ & ->)
    | [(n & d' & Haudio & Hdiv & _ & _ & ->) | (d' & r & Hrun & Hgate)]]]];
    try discriminate Hd.
  - injection Hd as <-. split; [eapply int_truediv_finite; eassumption|].
    now exists n.
  - destruct Hrun as (n & Haudio & Hdiv & _).
    destruct Hgate as [(_ & _ & ->) | [(_ & _ & _ & ->) | (_ & _ & _ & ->)]];
      try discriminate Hd.
    injection Hd as <-. split; [eapply int_truediv_finite; eassumption|].
    now exists n.
Qed.


(** ** Not-a-number at the quality gate *)

Lemma metrics_with_nan (segments : list (Segment float)) (s : Segment float) :
  In s segments ->
  (dict_get s "no_speech_prob" = PyFloat nan ->
   avg_no_speech_prob (build_quality_metrics segments) = nan)
  /\ (dict_get s "avg_logprob" = PyFloat nan ->
      avg_logprob (build_quality_metrics segments) = nan)
  /\ (dict_get s "compression_ratio" = PyFloat nan ->
      avg_compression_ratio (build_quality_metrics segments) = nan).
Proof.
  intros Hin. destruct segments as [|s0 l]; [destruct Hin|].
  unfold build_quality_metrics. cbv zeta.
  cbn [avg_no_speech_prob avg_logprob avg_compression_ratio].
  repeat split; intros Hnan; eapply mean_of_field_nan; eassumption.
Qed.

(** X6: a no-speech probability that is NaN in one segment makes
    [avg_no_speech_prob] NaN; no rule fires on it, and the text alone decides
    between [unclear_audio] and a Success. *)
Theorem nan_no_speech_prob_accepted (w : World) (args : Args) (duration : float)
    (result : Transcription) (s : Segment float) :
  transcribed w args duration result ->
  In s (segments_of result) ->
  dict_get s "no_speech_prob" = PyFloat nan ->
  avg_no_speech_prob (build_quality_metrics (segments_of result)) = nan
  /\ (emits_success w args <-> 8 <= PyStr.len (text_of result))
  /\ (emits_failure w args "unclear_audio" <-> PyStr.len (text_of result) < 8).
Proof.
  intros Hrun Hin Hnan.
  destruct (metrics_with_nan _ _ Hin) as (Hnsp & _). specialize (Hnsp Hnan).
  pose proof (run_transcribed w args duration result Hrun) as Hp. cbv zeta in Hp.
  unfold unclear_audio_rule, background_noise_rule in Hp.
  rewrite Hnsp, leb_nan_r, ltb_nan_r, orb_false_r, andb_false_r in Hp.
  split; [exact Hnsp|].
  unfold emits_success, emits_failure. rewrite Hp.
  destruct (PyStr.len (text_of result) <? 8) eqn:Hlen;
    [apply Z.ltb_lt in Hlen | apply Z.ltb_ge in Hlen].
  - split; split.
    + intros (p & [= <-] & Hok). discriminate Hok.
    + lia.
    + intros _. exact Hlen.
    + intros _. eexists. repeat split.
  - split; split.
    + intros _. exact Hlen.
    + intros _. eexists. split; reflexivity.
    + intros (p & [= <-] & _ & Hcode). discriminate Hcode.
    + lia.
Qed.

(** X7: a NaN in any of the three signals of any segment turns the
    [background_noise] rule off. *)
Theorem nan_disables_noise_rule (w : World) (args : Args) (duration : float)
    (result : Transcription) (s : Segment float) (key : string) :
  transcribed w args duration result ->
  In s (segments_of result) ->
  In key ["no_speech_prob"; "avg_logprob"; "compression_ratio"] ->
  dict_get s key = PyFloat nan ->
  background_noise_rule (build_quality_metrics (segments_of result)) = false
  /\ ~ emits_failure w args "background_noise".
Proof.
  intros Hrun Hin Hkey Hnan.
  destruct (metrics_with_nan _ _ Hin) as (Hnsp & Hlp & Hcr).
  assert (Hrule : background_noise_rule (build_quality_metrics (segments_of result))
                  = false).
  { unfold background_noise_rule.
    destruct Hkey as [<- | [<- | [<- | []]]].
    - now rewrite (Hnsp Hnan), ltb_nan_r, andb_false_r.
    - now rewrite (Hlp Hnan), ltb_nan_l, andb_false_r.
    - now rewrite (Hcr Hnan), ltb_nan_r. }
  split; [exact Hrule|].
  pose proof (run_transcribed w args duration result Hrun) as Hp. cbv zeta in Hp.
  rewrite Hrule in Hp. unfold emits_failure. rewrite Hp.
  intros (p & [= <-] & _ & Hcode).
  destruct (unclear_audio_rule _ _); discriminate Hcode.
Qed.

(** X8: a text that is missing or blank is [unclear_audio], whatever the
    segments say. *)
Theorem blank_text_unclear (w : World) (args : Args) (duration : float)
    (result : Transcription) :
  transcribed w args duration result ->
  (res_text result = None
   \/ exists text, res_text result = Some text /\ blank text = true) ->
  emitted w args
  = Some [("ok", JBool false);
          ("error_code", JStr "unclear_audio");
          ("message", JStr "Couldn't hear clearly");
          ("quality", quality_json (build_quality_metrics (segments_of result)))].
Proof.
  intros Hrun Hblank.
  pose proof (run_transcribed w args duration result Hrun) as Hp. cbv zeta in Hp.
  assert (Htext : text_of result = EmptyString).
  { unfold text_of. destruct Hblank as [-> | (text & -> & Hb)]; [reflexivity|].
    now apply strip_blank. }
  rewrite Htext in Hp. exact Hp.
Qed.

(** ** Keys the aggregation does not read *)

(** X9: only the three signal keys of a segment count. *)
Theorem other_keys_ignored {F : Type} `{Arith F} (segments others : list (Segment F)) :
  Forall2 same_signals segments others ->
  build_quality_metrics segments = build_quality_metrics others.
Proof.
  intros Hsame. rewrite !build_quality_metrics_spec.
  unfold spec_quality_metrics.
  assert (Hsubst : map substitute segments = map substitute others).
  { induction Hsame as [|s t l l' (Hnsp & Hlp & Hcr) _ IH]; [reflexivity|].
    simpl. rewrite IH. f_equal. unfold substitute. now rewrite Hnsp, Hlp, Hcr. }
  now rewrite Hsubst.
Qed.

(** ** Short failure texts *)

Lemma lower_length (s : string) : String.length (PyStr.lower s) = String.length s.
Proof. induction s as [|c s IH]; simpl; [reflexivity | now rewrite IH]. Qed.

Lemma append_length (a b : string) :
  String.length (a ++ b) = (String.length a + String.length b)%nat.
Proof. induction a as [|c a IH]; simpl; [reflexivity | now rewrite IH]. Qed.

Lemma contains_length (sub s : string) :
  PyStr.contains sub s = true -> (String.length sub <= String.length s)%nat.
Proof.
  intros Hc. apply contains_iff in Hc as (before & after & ->).
  rewrite !append_length. lia.
Qed.

(** X14: a failure text of fewer than six characters is never taken for a
    missing tool. *)
Theorem short_failure_text_unclassified (w : World) (args : Args) (msg : string) :
  failed_in_transcription w args msg ->
  (String.length msg < 6)%nat ->
  emitted w args
  = Some [("ok", JBool false);
          ("error_code", JStr "transcription_failed");
          ("message", JStr "Transcription failed unexpectedly.");
          ("details", JStr msg)].
Proof.
  intros Hfail Hshort. rewrite (run_failed w args msg Hfail).
  assert (Htool : mentions_missing_tool (PyStr.lower msg) = false).
  { unfold mentions_missing_tool.
    apply orb_false_iff; split; [apply orb_false_iff; split|];
      apply not_true_is_false; intros Hc; apply contains_length in Hc;
      rewrite lower_length in Hc; simpl in Hc; lia. }
  now rewrite Htool.
Qed.


(** ** The text on standard output *)

Lemma all_printable_app (a b : string) :
  Json.all_printable (a ++ b) = Json.all_printable a && Json.all_printable b.
Proof.
  induction a as [|c a IH]; simpl; [reflexivity|]. now rewrite IH, andb_assoc.
Qed.

Lemma escape_char_printable (c : ascii) :
  Json.all_printable (Json.escape_char c) = true.
Proof.
  destruct c as [[] [] [] [] [] [] [] []]; reflexivity.
Qed.

Lemma escape_printable (s : string) : Json.all_printable (Json.escape s) = true.
Proof.
  induction s as [|c s IH]; simpl; [reflexivity|].
  now rewrite all_printable_app, escape_char_printable, IH.
Qed.

Lemma encode_string_printable (s : string) :
  Json.all_printable (Json.encode_string s) = true.
Proof.
  unfold Json.encode_string.
  change (String Json.dquote (Json.escape s ++ String Json.dquote EmptyString))
    with (String Json.dquote EmptyString
          ++ Json.escape s ++ String Json.dquote EmptyString).
  now rewrite !all_printable_app, escape_printable.
Qed.

Lemma string_of_uint_printable (d : Decimal.uint) :
  Json.all_printable (NilEmpty.string_of_uint d) = true.
Proof. induction d; simpl; trivial. Qed.

Lemma encode_int_printable (n : Z) : Json.all_printable (Json.encode_int n) = true.
Proof.
  unfold Json.encode_int, NilZero.string_of_int, NilZero.string_of_uint.
  destruct (Z.to_int n) as [d|d]; destruct d; simpl; trivial;
    apply string_of_uint_printable.
Qed.

Section Printable.

Variable float_repr : float -> string.
Hypothesis float_repr_printable : forall x, Json.all_printable (float_repr x) = true.

Lemma encode_float_printable (x : float) :
  Json.all_printable (Json.encode_float float_repr x) = true.
Proof.
  unfold Json.encode_float.
  destruct (is_nan x); [reflexivity|].
  destruct (PrimFloat.eqb x infinity); [reflexivity|].
  destruct (PrimFloat.eqb x neg_infinity); [reflexivity|].
  apply float_repr_printable.
Qed.

Lemma dumps_printable (value : json) :
  Json.all_printable (Json.dumps float_repr value) = true.
Proof.
  revert value. fix IH 1. intros [[|]|n|x|s|fields].
  - reflexivity.
  - reflexivity.
  - apply encode_int_printable.
  - apply encode_float_printable.
  - apply encode_string_printable.
  - cbn [Json.dumps].
    match goal with
    | |- Json.all_printable ("{" ++ ?items fields ++ "}") = true =>
        assert (Hitems : Json.all_printable (items fields) = true)
    end.
    { induction fields as [|[k v] l IHl]; [reflexivity|].
      destruct l as [|kv l].
      - rewrite !all_printable_app, encode_string_printable, IH. reflexivity.
      - destruct kv as [k' v'].
        rewrite !all_printable_app, encode_string_printable, IH.
        rewrite IHl. reflexivity. }
    rewrite !all_printable_app, Hitems. reflexivity.
Qed.

Lemma append_empty (s : string) : s ++ EmptyString = s.
Proof. induction s as [|c s IH]; simpl; [reflexivity | now rewrite IH]. Qed.

End Printable.


(** ** The thresholds of the quality gate *)

(** X12: the first threshold is inclusive, the three of the noise rule are
    exclusive. *)
Theorem gate_boundaries (w : World) (args : Args) (duration : float)
    (result : Transcription) :
  transcribed w args duration result ->
  let quality := build_quality_metrics (segments_of result) in
  (avg_no_speech_prob quality = 0.78%float -> emits_failure w args "unclear_audio")
  /\ (avg_compression_ratio quality = 2.4%float
      \/ avg_logprob quality = (-0.9)%float
      \/ avg_no_speech_prob quality = 0.45%float ->
      ~ emits_failure w args "background_noise").
Proof.
  intros Hrun quality.
  pose proof (run_transcribed w args duration result Hrun) as Hp.
  cbv zeta in Hp. fold quality in Hp. unfold emits_failure. rewrite Hp. split.
  - intros Hnsp.
    assert (Hrule : unclear_audio_rule (text_of result) quality = true).
    { unfold unclear_audio_rule. rewrite Hnsp. apply orb_true_r. }
    rewrite Hrule. eexists. repeat split.
  - intros Hedge (p & [= <-] & _ & Hcode).
    assert (Hrule : background_noise_rule quality = false).
    { unfold background_noise_rule.
      destruct Hedge as [-> | [-> | ->]];
        [ reflexivity
        | now rewrite andb_false_r
        | now rewrite andb_false_r ]. }
    rewrite Hrule in Hcode.
    destruct (unclear_audio_rule _ _); discriminate Hcode.
Qed.

(** X13: [background_noise] is only reported for a text of at least 8
    characters whose no-speech probability lies above 0.45 and not at or
    above 0.78, with the other two signals beyond their thresholds. *)
Theorem background_noise_window (w : World) (args : Args) :
  emits_failure w args "background_noise" ->
  exists duration result,
    transcribed w args duration result
    /\ 8 <= PyStr.len (text_of result)
    /\ PrimFloat.ltb 0.45
         (avg_no_speech_prob (build_quality_metrics (segments_of result))) = true
    /\ PrimFloat.leb 0.78
         (avg_no_speech_prob (build_quality_metrics (segments_of result))) = false
    /\ PrimFloat.ltb 2.4
         (avg_compression_ratio (build_quality_metrics (segments_of result))) = true
    /\ PrimFloat.ltb
         (avg_logprob (build_quality_metrics (segments_of result))) (-0.9) = true.
Proof.
  intros (p & Hp & _ & Hcode). invert_run w args q k Hcase. cbv zeta in Hcase.
  rewrite Hp in Hout. injection Hout as <-.
  destruct Hcase as [(_ & _ & ->) | [(exc & _ & _ & _ & ->) | [(msg & _ & _ & ->)
    | [(n & d & _ & _ & _ & _ & ->) | (d & r & Hrun & Hgate)]]]];
    try discriminate Hcode.
  - cbn in Hcode. destruct (mentions_missing_tool _); discriminate Hcode.
  - destruct Hgate as [(_ & _ & ->) | [(Hunclear & Hnoise & _ & ->) | (_ & _ & _ & ->)]];
      try discriminate Hcode.
    exists d, r. split; [exact Hrun|].
    unfold unclear_audio_rule in Hunclear.
    apply orb_false_iff in Hunclear as [Hlen Hnsp]. apply Z.ltb_ge in Hlen.
    apply background_noise_rule_iff in Hnoise as (Hcr & Hlp & Hlow).
    repeat split; assumption.
Qed.



(** ** The further properties on sample runs *)

(** A machine without [whisper]: the import text has no "ffmpeg" in it. *)
Lemma import_failure_reported_witness :
  emitted world_without_whisper sample_args
  = Some [("ok", JBool false);
          ("error_code", JStr "dependency_missing");
          ("message",
           JStr "Whisper dependencies are not installed. Install python requirements and ffmpeg first.");
          ("details", JStr "No module named 'whisper'")]
  /\ calls (snd (run world_without_whisper sample_args))
     = [CallIsFile "/srv/uploads/standup.wav"; CallImportWhisper].
Proof.
  apply (import_failure_reported world_without_whisper sample_args
           "No module named 'whisper'"); reflexivity.
Defined.

(** Scenario E: ten seconds of clear speech. *)
Lemma success_after_full_pipeline_witness :
  is_success
    [("ok", JBool true);
     ("meeting_id", JStr "meeting-42");
     ("model", JStr "base");
     ("duration_seconds", JFloat 10);
     ("processing_seconds", JFloat 3.5);
     ("segment_count", JInt 1);
     ("transcript_text", JStr "Let us start with the release plan.");
     ("quality",
      JObj [("avg_no_speech_prob", JFloat 0.1);
            ("avg_logprob", JFloat (-0.2));
            ("avg_compression_ratio", JFloat 1.5)])] = true
  /\ calls (snd (run (world_with (Ret 160000%N) (Ret tt) (Ret clear_speech))
                  sample_args))
     = pipeline (world_with (Ret 160000%N) (Ret tt) (Ret clear_speech)) sample_args.
Proof.
  split; [reflexivity|].
  destruct (success_after_full_pipeline
              (world_with (Ret 160000%N) (Ret tt) (Ret clear_speech)) sample_args
              _ eq_refl eq_refl)
    as (duration & result & _ & Hcalls & _).
  exact Hcalls.
Defined.

(** The language hint of the sample arguments reaches the model. *)
Lemma transcribe_configuration_witness :
  kw_language (kwargs_of sample_args) = Some "en"
  /\ kw_task (kwargs_of sample_args) = "transcribe".
Proof.
  destruct (transcribe_configuration
              (world_with (Ret 160000%N) (Ret tt) (Ret clear_speech)) sample_args
              "/srv/uploads/standup.wav" (kwargs_of sample_args))
    as (_ & _ & _ & _ & Htask & Hlanguage).
  - right; right; right; right; right; left. reflexivity.
  - split; [exact Hlanguage | exact Htask].
Defined.

(** A NaN no-speech probability under a made-up text: a Success. *)
Lemma nan_no_speech_prob_accepted_witness :
  emits_success (world_with (Ret 160000%N) (Ret tt) (Ret nan_speech)) sample_args.
Proof.
  destruct (nan_no_speech_prob_accepted
              (world_with (Ret 160000%N) (Ret tt) (Ret nan_speech)) sample_args
              10%float nan_speech (segment_of nan (-0.2) 1.5))
    as (_ & Hsuccess & _).
  - exists 160000%N. repeat split.
  - left. reflexivity.
  - reflexivity.
  - apply Hsuccess. discriminate.
Defined.

Lemma nan_disables_noise_rule_witness :
  ~ emits_failure (world_with (Ret 160000%N) (Ret tt) (Ret nan_speech)) sample_args
      "background_noise".
Proof.
  apply (nan_disables_noise_rule
           (world_with (Ret 160000%N) (Ret tt) (Ret nan_speech)) sample_args
           10%float nan_speech (segment_of nan (-0.2) 1.5) "no_speech_prob").
  - exists 160000%N. repeat split.
  - left. reflexivity.
  - left. reflexivity.
  - reflexivity.
Defined.

(** White space over confident speech: [unclear_audio]. *)
Lemma blank_text_unclear_witness :
  emits_failure (world_with (Ret 160000%N) (Ret tt) (Ret blank_speech)) sample_args
    "unclear_audio".
Proof.
  exists [("ok", JBool false);
          ("error_code", JStr "unclear_audio");
          ("message", JStr "Couldn't hear clearly");
          ("quality",
           quality_json (build_quality_metrics (segments_of blank_speech)))].
  split; [|split; reflexivity].
  apply (blank_text_unclear
           (world_with (Ret 160000%N) (Ret tt) (Ret blank_speech)) sample_args
           10%float blank_speech).
  - exists 160000%N. repeat split.
  - right. exists "   ". split; reflexivity.
Defined.

(** The position and the text of a segment do not count. *)
Lemma other_keys_ignored_witness :
  build_quality_metrics [full_segment 0.5 (-1.0) 3.0]
  = build_quality_metrics [segment_of 0.5 (-1.0) 3.0].
Proof.
  apply other_keys_ignored. constructor; [|constructor]. repeat split.
Defined.

(** The quality of scenario D. *)
Lemma quality_is_the_aggregate_witness :
  exists duration result,
    transcribed (world_with (Ret 160000%N) (Ret tt) (Ret noisy_speech)) sample_args
      duration result
    /\ field "quality"
         [("ok", JBool false);
          ("error_code", JStr "background_noise");
          ("message", JStr "Try quieter place");
          ("quality", quality_json (build_quality_metrics [segment_of 0.5 (-1.0) 3.0]))]
       = Some (quality_json (build_quality_metrics (segments_of result))).
Proof.
  apply (quality_is_the_aggregate
           (world_with (Ret 160000%N) (Ret tt) (Ret noisy_speech)) sample_args);
    reflexivity.
Defined.

(** A loader that fails with a four-letter text. *)
Lemma short_failure_text_unclassified_witness :
  emitted (world_with (Raise "boom") (Ret tt) (Ret clear_speech)) sample_args
  = Some [("ok", JBool false);
          ("error_code", JStr "transcription_failed");
          ("message", JStr "Transcription failed unexpectedly.");
          ("details", JStr "boom")].
Proof.
  apply (short_failure_text_unclassified
           (world_with (Raise "boom") (Ret tt) (Ret clear_speech)) sample_args "boom").
  - split; [reflexivity|]. split; [reflexivity|]. left. reflexivity.
  - simpl. lia.
Defined.

(** The duration of scenario B. *)
Lemma duration_is_finite_witness : PrimFloat.is_finite 4000 = true.
Proof.
  apply (duration_is_finite
           (world_with (Ret 64000000%N) (Ret tt) (Ret clear_speech)) sample_args
           [("ok", JBool false);
            ("error_code", JStr "too_long");
            ("message", JStr "Please split into 1 hour parts");
            ("duration_seconds", JFloat 4000)]
           4000%float eq_refl eq_refl).
Defined.

(** A no-speech probability on the first threshold; scenario D inside the
    window of the noise rule. *)
Lemma gate_boundaries_witness :
  transcribed (world_with (Ret 160000%N) (Ret tt)
                 (Ret {| res_text := Some "A sentence on the threshold.";
                         res_segments := Some [segment_of 0.78 (-0.2) 1.5] |}))
    sample_args 10%float
    {| res_text := Some "A sentence on the threshold.";
       res_segments := Some [segment_of 0.78 (-0.2) 1.5] |}
  /\ emits_failure
       (world_with (Ret 160000%N) (Ret tt)
          (Ret {| res_text := Some "A sentence on the threshold.";
                  res_segments := Some [segment_of 0.78 (-0.2) 1.5] |}))
       sample_args "unclear_audio".
Proof.
  assert (Hrun : transcribed
                   (world_with (Ret 160000%N) (Ret tt)
                      (Ret {| res_text := Some "A sentence on the threshold.";
                              res_segments := Some [segment_of 0.78 (-0.2) 1.5] |}))
                   sample_args 10%float
                   {| res_text := Some "A sentence on the threshold.";
                      res_segments := Some [segment_of 0.78 (-0.2) 1.5] |})
    by (exists 160000%N; repeat split).
  split; [exact Hrun|].
  destruct (gate_boundaries _ _ _ _ Hrun) as [Hedge _].
  apply Hedge. reflexivity.
Defined.

Lemma background_noise_window_witness :
  exists duration result,
    transcribed (world_with (Ret 160000%N) (Ret tt) (Ret noisy_speech)) sample_args
      duration result
    /\ 8 <= PyStr.len (text_of result).
Proof.
  destruct (background_noise_window
              (world_with (Ret 160000%N) (Ret tt) (Ret noisy_speech)) sample_args)
    as (duration & result & Hrun & Hlen & _).
  - eexists. split; [reflexivity|]. split; reflexivity.
  - exists duration, result. split; [exact Hrun | exact Hlen].
Defined.


(** ** Reading back the line of a Failure *)

Lemma string_app_assoc (a b c : string) : (a ++ b) ++ c = a ++ b ++ c.
Proof. induction a as [|x a IH]; simpl; [reflexivity | now rewrite IH]. Qed.

Lemma after_app (p t : string) : Json.after p (p ++ t) = Some t.
Proof.
  induction p as [|c p IH]; simpl; [reflexivity|]. now rewrite Ascii.eqb_refl.
Qed.

Lemma read_string_escape_char (c : ascii) (t : string) :
  Json.read_string (Json.escape_char c ++ t)
  = match Json.read_string t with
    | Some (u, rest) => Some (String c u, rest)
    | None => None
    end.
Proof.
  destruct c as [[] [] [] [] [] [] [] []]; reflexivity.
Qed.

Lemma read_string_escape (s rest : string) :
  Json.read_string (Json.escape s ++ String Json.dquote rest) = Some (s, rest).
Proof.
  induction s as [|c s IH]; [reflexivity|].
  cbn [Json.escape]. now rewrite string_app_assoc, read_string_escape_char, IH.
Qed.

Lemma read_encoded_string (s rest : string) :
  Json.after (String Json.dquote EmptyString) (Json.encode_string s ++ rest)
  = Some (Json.escape s ++ String Json.dquote rest).
Proof.
  unfold Json.encode_string. cbn [append Json.after].
  rewrite Ascii.eqb_refl. now rewrite string_app_assoc.
Qed.

Section ReadBack.

Variable float_repr : float -> string.

Lemma read_value_dumps (v : json) (rest : string) :
  Json.flat_value v = true ->
  Json.read_value (Json.dumps float_repr v ++ rest) = Some (v, rest).
Proof.
  destruct v as [[|]|n|x|s|fields]; try discriminate; intros _.
  - reflexivity.
  - reflexivity.
  - unfold Json.read_value. cbn [Json.dumps].
    now rewrite read_encoded_string, read_string_escape.
Qed.

Lemma dumps_object (l : list (string * json)) :
  Json.dumps float_repr (JObj l) = "{" ++ Json.members float_repr l ++ "}".
Proof.
  cbn [Json.dumps]. do 2 f_equal.
  induction l as [|[k v] l IH]; [reflexivity|].
  destruct l as [|kv l].
  - cbn [Json.members]. now rewrite append_empty.
  - change (Json.members float_repr ((k, v) :: kv :: l))
      with (Json.encode_string k ++ ": " ++ Json.dumps float_repr v
            ++ ", " ++ Json.members float_repr (kv :: l)).
    rewrite <- IH. reflexivity.
Qed.

Lemma read_members_members (l : list (string * json)) :
  forall (fuel : nat) (rest : string),
    l <> [] ->
    Json.flat l = true ->
    (List.length l <= fuel)%nat ->
    Json.read_members fuel (Json.members float_repr l ++ "}" ++ rest) = Some (l, rest).
Proof.
  induction l as [|[k v] l IH]; intros fuel rest Hne Hflat Hfuel; [congruence|].
  destruct fuel as [|fuel]; [simpl in Hfuel; lia|].
  cbn [Json.flat forallb snd] in Hflat. apply andb_true_iff in Hflat as [Hv Hl].
  cbn [Json.members Json.read_members].
  rewrite !string_app_assoc, read_encoded_string, read_string_escape.
  rewrite after_app.
  rewrite read_value_dumps by exact Hv.
  destruct l as [|kv l].
  - reflexivity.
  - rewrite string_app_assoc, after_app.
    rewrite IH; [reflexivity | discriminate | exact Hl | simpl in *; lia].
Qed.

Lemma members_length (l : list (string * json)) :
  (List.length l <= String.length (Json.members float_repr l))%nat.
Proof.
  induction l as [|[k v] l IH]; [simpl; lia|].
  cbn [Json.members List.length]. rewrite !append_length.
  assert (Hkey : (1 <= String.length (Json.encode_string k))%nat)
    by (unfold Json.encode_string; simpl; lia).
  assert (Htail : (List.length l
                   <= String.length match l with
                                    | [] => EmptyString
                                    | _ :: _ => ", " ++ Json.members float_repr l
                                    end)%nat).
  { destruct l as [|kv l]; [simpl; lia|]. rewrite append_length. lia. }
  lia.
Qed.

(** What [emit] writes for a payload of strings and booleans is a line of
    printable ASCII characters, from which the payload reads back. *)
Lemma flat_line_reads_back (p : Payload) :
  Json.flat p = true ->
  exists text,
    Json.line_of float_repr p = text ++ String "010"%char EmptyString
    /\ Json.all_printable text = true
    /\ Json.read_object text = Some p.
Proof.
  intros Hflat. exists (Json.dumps float_repr (JObj p)).
  split; [reflexivity|]. rewrite dumps_object. split.
  - assert (Hm : Json.all_printable (Json.members float_repr p) = true).
    { induction p as [|[k v] l IH]; [reflexivity|].
      cbn [Json.flat forallb snd] in Hflat. apply andb_true_iff in Hflat as [Hv Hl].
      cbn [Json.members]. rewrite !all_printable_app, encode_string_printable.
      assert (Hd : Json.all_printable (Json.dumps float_repr v) = true).
      { destruct v as [[|]|n|x|s|fields]; try discriminate Hv;
          [reflexivity | reflexivity | apply encode_string_printable]. }
      rewrite Hd. destruct l as [|kv l]; [reflexivity|].
      rewrite all_printable_app, (IH Hl). reflexivity. }
    now rewrite !all_printable_app, Hm.
  - destruct p as [|[k v] l]; [reflexivity|].
    unfold Json.read_object. rewrite after_app.
    set (body := Json.members float_repr ((k, v) :: l) ++ "}").
    assert (Hstart : Json.after "}" body = None).
    { unfold body. cbn [Json.members]. unfold Json.encode_string. reflexivity. }
    rewrite Hstart.
    assert (Hread : Json.read_members (String.length body) body
                    = Some ((k, v) :: l, EmptyString)).
    { apply (read_members_members ((k, v) :: l) (String.length body) EmptyString);
        [discriminate | exact Hflat |].
      unfold body. rewrite append_length.
      pose proof (members_length ((k, v) :: l)). lia. }
    now rewrite Hread.
Qed.

(** X10: for a Failure without quality and duration, [emit] writes a line of
    printable ASCII characters, and reading that line as JSON gives the
    object back: its error code, its message and, character for character,
    its details. *)
Theorem failure_line_reads_back (w : World) (args : Args) (p : Payload) :
  emitted w args = Some p ->
  has_key "quality" p = false ->
  has_key "duration_seconds" p = false ->
  exists text,
    Json.line_of float_repr p = text ++ String "010"%char EmptyString
    /\ Json.all_printable text = true
    /\ Json.read_object text = Some p.
Proof.
  intros Hp Hquality Hduration. apply flat_line_reads_back.
  invert_run w args q k Hcase. cbv zeta in Hcase.
  rewrite Hp in Hout. injection Hout as <-.
  destruct Hcase as [(_ & _ & ->) | [(exc & _ & _ & _ & ->) | [(msg & _ & _ & ->)
    | [(n & d & _ & _ & _ & _ & ->) | (d & r & _ & Hgate)]]]];
    try reflexivity; try discriminate Hduration.
  destruct Hgate as [(_ & _ & ->) | [(_ & _ & _ & ->) | (_ & _ & _ & ->)]];
    discriminate Hquality.
Qed.

End ReadBack.

(** A loader that fails with an awkward text: the line of the Failure reads
    back to the object, the text intact. The object holds no float, so the
    way floats are written plays no part. *)
Lemma failure_line_reads_back_witness :
  emitted (world_with (Raise awkward_failure_text) (Ret tt) (Ret clear_speech))
    sample_args
  = Some [("ok", JBool false);
          ("error_code", JStr "dependency_missing");
          ("message", JStr "Whisper requires ffmpeg installed on the server.");
          ("details", JStr awkward_failure_text)]
  /\ exists text,
       Json.line_of (fun _ => EmptyString)
         [("ok", JBool false);
          ("error_code", JStr "dependency_missing");
          ("message", JStr "Whisper requires ffmpeg installed on the server.");
          ("details", JStr awkward_failure_text)]
       = text ++ String "010"%char EmptyString
       /\ Json.all_printable text = true
       /\ Json.read_object text
          = Some [("ok", JBool false);
                  ("error_code", JStr "dependency_missing");
                  ("message", JStr "Whisper requires ffmpeg installed on the server.");
                  ("details", JStr awkward_failure_text)].
Proof.
  split; [reflexivity|].
  apply (failure_line_reads_back (fun _ => EmptyString)
           (world_with (Raise awkward_failure_text) (Ret tt) (Ret clear_speech))
           sample_args);
    reflexivity.
Defined.
